(** * The tracing proxy's blob parsing and fact extraction (resources/app.py)

    A shallow embedding of the pure core of [app.py]: the helpers
    [_safe_json_loads], [_extract_last_json_from_blob],
    [_aggregate_completion_from_stream], [_extract_first_completion_text],
    [_extract_usage_from_data], and the two route handlers [chat_completions]
    and [dumb_proxy] seen as functions from the inbound request and the
    backend's answer to the span attributes and the outbound response.

    The specification names the helpers [parse_last_json],
    [aggregate_completion], [first_completion_text] and [usage_facts].

    Python objects are modelled by [value]; a Python exception by the
    [Raise] outcome of [result].  Text ([str]) is a [string] holding the UTF-8
    encoding of the Python string, so that every code point is representable
    and substring search, splitting and concatenation are the byte-level ones. *)

From Stdlib Require Import ZArith List String Ascii Bool Lia.
From Stdlib Require Import Floats.SpecFloat.
Import ListNotations.

Local Open Scope string_scope.
Local Open Scope list_scope.

(** ** Outcomes of a Python computation *)

Module Py.

(** The exceptions the modelled code can raise by itself. *)
Inductive exn : Type :=
| AttributeError   (* [.get] / [.pop] on an object that has no such method *)
| IndexError       (* [x[0]] on an empty list or string *)
| KeyError         (* [d[0]] on a mapping *)
| TypeError        (* subscripting or iterating a scalar, joining a non-string, adding unlike types *)
| OverflowError.   (* integer too large to convert to float *)

Inductive result (A : Type) : Type :=
| Ok (a : A)
| Raise (e : exn).

Arguments Ok {A} a.
Arguments Raise {A} e.

Definition bind {A B : Type} (c : result A) (k : A -> result B) : result B :=
  match c with
  | Ok a => k a
  | Raise e => Raise e
  end.

(** [try: body / except Exception: handler]; every [exn] is an [Exception]. *)
Definition try_except {A : Type} (body handler : result A) : result A :=
  match body with
  | Ok a => Ok a
  | Raise _ => handler
  end.

Definition returns {A : Type} (c : result A) : Prop := exists a, c = Ok a.

Definition raises {A : Type} (c : result A) : Prop := exists e, c = Raise e.

End Py.

Export Py.

Notation "x <- c ;; k" := (bind c (fun x => k))
  (at level 61, c at next level, right associativity).

(** ** Text *)

Module Text.

Definition chr (n : nat) : ascii := ascii_of_nat n.

Definition bytes (codes : list nat) : string :=
  fold_right (fun n s => String (chr n) s) EmptyString codes.

(** UTF-8 encoding of one code point (surrogates are encoded like any other
    three-byte code point, as Python's [surrogatepass] does). *)
Definition utf8 (cp : N) : string :=
  let b (n : N) := N.to_nat n in
  if (cp <? 128)%N then bytes [b cp]
  else if (cp <? 2048)%N then
    bytes [b (192 + cp / 64); b (128 + cp mod 64)]%N
  else if (cp <? 65536)%N then
    bytes [b (224 + cp / 4096); b (128 + (cp / 64) mod 64); b (128 + cp mod 64)]%N
  else
    bytes [b (240 + cp / 262144); b (128 + (cp / 4096) mod 64);
           b (128 + (cp / 64) mod 64); b (128 + cp mod 64)]%N.

Fixpoint drop (n : nat) (s : string) : string :=
  match n, s with
  | O, _ => s
  | S _, EmptyString => EmptyString
  | S k, String _ r => drop k r
  end.

Definition take (n : nat) (s : string) : string := substring 0 n s.

Fixpoint rev_onto (s acc : string) : string :=
  match s with
  | EmptyString => acc
  | String c r => rev_onto r (String c acc)
  end.

Definition rev (s : string) : string := rev_onto s EmptyString.

Definition is_empty (s : string) : bool :=
  match s with
  | EmptyString => true
  | String _ _ => false
  end.

(** Length in bytes of the first member of [table] that [s] starts with;
    [0] when there is none. *)
Fixpoint match_len (table : list string) (s : string) : nat :=
  match table with
  | [] => O
  | w :: rest => if prefix w s then String.length w else match_len rest s
  end.

(** The line boundaries of [str.splitlines]: CR LF, LF, CR, VT, FF, FS, GS,
    RS, NEL (U+0085), LS (U+2028) and PS (U+2029). *)
Definition line_boundaries : list string :=
  bytes [13; 10] ::
  map utf8 [10; 13; 11; 12; 28; 29; 30; 133; 8232; 8233]%N.

(** [str.splitlines()]: no line is produced for the empty text after the
    last boundary. [skip] counts the bytes of a boundary still to pass over,
    [cur] holds the current line. *)
Fixpoint splitlines_from (s : string) (skip : nat) (cur : string) : list string :=
  match s with
  | EmptyString => if is_empty cur then [] else [cur]
  | String c r =>
      match skip with
      | S k => splitlines_from r k cur
      | O =>
          match match_len line_boundaries s with
          | O => splitlines_from r O (cur ++ String c EmptyString)%string
          | S k => cur :: splitlines_from r k EmptyString
          end
      end
  end.

Definition splitlines (s : string) : list string := splitlines_from s O EmptyString.

(** The characters [str.isspace] accepts, which [str.strip()] removes:
    U+0009..U+000D, U+001C..U+0020, U+0085, U+00A0, U+1680, U+2000..U+200A,
    U+2028, U+2029, U+202F, U+205F, U+3000. *)
Definition whitespace_points : list N :=
  [9; 10; 11; 12; 13; 28; 29; 30; 31; 32; 133; 160; 5760;
   8192; 8193; 8194; 8195; 8196; 8197; 8198; 8199; 8200; 8201; 8202;
   8232; 8233; 8239; 8287; 12288]%N.

Definition whitespace : list string := map utf8 whitespace_points.

Definition whitespace_rev : list string := map rev whitespace.

Fixpoint lstrip_from (table : list string) (skip : nat) (s : string) : string :=
  match s with
  | EmptyString => EmptyString
  | String _ r =>
      match skip with
      | S k => lstrip_from table k r
      | O =>
          match match_len table s with
          | O => s
          | S k => lstrip_from table k r
          end
      end
  end.

Definition lstrip (s : string) : string := lstrip_from whitespace O s.

Definition rstrip (s : string) : string := rev (lstrip_from whitespace_rev O (rev s)).

(** [str.strip()] *)
Definition strip (s : string) : string := rstrip (lstrip s).

(** [sub in s] *)
Fixpoint contains (sub s : string) : bool :=
  if prefix sub s then true
  else match s with
       | EmptyString => false
       | String _ r => contains sub r
       end.

(** [s.split(sep, 1)] for a non-empty [sep]: the text before and after the
    first occurrence of [sep], or [s] alone when there is none. *)
Fixpoint split_once_from (sep s before : string) : list string :=
  if prefix sep s then [before; drop (String.length sep) s]
  else match s with
       | EmptyString => [before]
       | String c r => split_once_from sep r (before ++ String c EmptyString)%string
       end.

Definition split_once (sep s : string) : list string := split_once_from sep s EmptyString.

(** [xs[-1]] of a list of strings that is never empty here. *)
Definition last_item (xs : list string) : string := List.last xs EmptyString.

(** [s.lstrip('/')] *)
Fixpoint lstrip_char (c : ascii) (s : string) : string :=
  match s with
  | EmptyString => EmptyString
  | String d r => if Ascii.eqb c d then lstrip_char c r else s
  end.

(** [str.lower()] on the ASCII letters. The lowered names are only compared
    with the literals [host], [content-encoding], [transfer-encoding] and
    [content-type]; no text with a non-ASCII character lowers to one of
    these, so the comparisons agree with the Unicode [lower]. *)
Definition lower_char (c : ascii) : ascii :=
  let n := nat_of_ascii c in
  if andb (Nat.leb 65 n) (Nat.leb n 90) then ascii_of_nat (n + 32) else c.

Fixpoint lower (s : string) : string :=
  match s with
  | EmptyString => EmptyString
  | String c r => String (lower_char c) (lower r)
  end.

(** Number of bytes of the UTF-8 character that starts with byte [c]. *)
Definition char_width (c : ascii) : nat :=
  let n := nat_of_ascii c in
  if Nat.ltb n 192 then 1%nat
  else if Nat.ltb n 224 then 2%nat
  else if Nat.ltb n 240 then 3%nat
  else 4%nat.

(** The characters of a text, in order. *)
Fixpoint chars_from (s : string) (pending : nat) (cur : string) : list string :=
  match s with
  | EmptyString => if is_empty cur then [] else [cur]
  | String c r =>
      match pending with
      | S O => (cur ++ String c EmptyString)%string :: chars_from r O EmptyString
      | S k => chars_from r k (cur ++ String c EmptyString)%string
      | O =>
          match char_width c with
          | S O => String c EmptyString :: chars_from r O EmptyString
          | w => chars_from r (Nat.pred w) (String c EmptyString)
          end
      end
  end.

Definition chars (s : string) : list string := chars_from s O EmptyString.

(** Replaces every apostrophe by a double quote: JSON texts are written
    below with apostrophes around their strings. *)
Fixpoint dq (s : string) : string :=
  match s with
  | EmptyString => EmptyString
  | String c r => String (if Ascii.eqb c "'"%char then chr 34 else c) (dq r)
  end.

End Text.

(** ** Python objects *)

Module Obj.

Import Text.

(** IEEE 754 binary64, the format of a Python [float]. *)
Definition prec : Z := 53%Z.
Definition emax : Z := 1024%Z.

(** The objects [json.loads] can produce. A [dict] keeps its items in
    insertion order and holds each key once. *)
#[local] Unset Elimination Schemes.
Inductive value : Type :=
| VNone
| VBool (b : bool)
| VInt (n : Z)
| VFloat (f : spec_float)
| VStr (s : string)
| VList (items : list value)
| VDict (items : list (string * value)).
#[local] Set Elimination Schemes.

(** [bool(v)], the test of [if v:], [not v] and [v or w]. *)
Definition truthy (v : value) : bool :=
  match v with
  | VNone => false
  | VBool b => b
  | VInt n => negb (Z.eqb n 0)
  | VFloat (S754_zero _) => false
  | VFloat _ => true
  | VStr s => negb (is_empty s)
  | VList items => match items with [] => false | _ :: _ => true end
  | VDict items => match items with [] => false | _ :: _ => true end
  end.

(** [a or b], with [b] evaluated only when [a] is falsy. *)
Definition py_or (a : value) (b : result value) : result value :=
  if truthy a then Ok a else b.

Definition is_none (v : value) : bool :=
  match v with
  | VNone => true
  | _ => false
  end.

Fixpoint lookup (k : string) (items : list (string * value)) : option value :=
  match items with
  | [] => None
  | (k', v) :: rest => if String.eqb k k' then Some v else lookup k rest
  end.

Fixpoint remove_key (k : string) (items : list (string * value)) : list (string * value) :=
  match items with
  | [] => []
  | (k', v) :: rest => if String.eqb k k' then remove_key k rest else (k', v) :: remove_key k rest
  end.

(** [d[k] = v]: an existing key keeps its position. *)
Fixpoint store (k : string) (v : value) (items : list (string * value)) : list (string * value) :=
  match items with
  | [] => [(k, v)]
  | (k', v') :: rest => if String.eqb k k' then (k, v) :: rest else (k', v') :: store k v rest
  end.

(** [obj.get(k, default)]: only a [dict] has the method. *)
Definition py_get (obj : value) (k : string) (default : value) : result value :=
  match obj with
  | VDict items =>
      match lookup k items with
      | Some v => Ok v
      | None => Ok default
      end
  | _ => Raise AttributeError
  end.

(** [obj.pop(k, default)]: the value and the object left. A [list] has a
    [pop] that takes one argument at most. *)
Definition py_pop (obj : value) (k : string) (default : value) : result (value * value) :=
  match obj with
  | VDict items =>
      match lookup k items with
      | Some v => Ok (v, VDict (remove_key k items))
      | None => Ok (default, obj)
      end
  | VList _ => Raise TypeError
  | _ => Raise AttributeError
  end.

(** [obj[0]] *)
Definition py_item0 (obj : value) : result value :=
  match obj with
  | VList [] => Raise IndexError
  | VList (x :: _) => Ok x
  | VStr s =>
      match chars s with
      | [] => Raise IndexError
      | c :: _ => Ok (VStr c)
      end
  | VDict _ => Raise KeyError
  | VNone | VBool _ | VInt _ | VFloat _ => Raise TypeError
  end.

(** [obj == s] for a string literal [s] *)
Definition eq_str (obj : value) (s : string) : bool :=
  match obj with
  | VStr t => String.eqb t s
  | _ => false
  end.

(** [k in obj] for a string [k] *)
Definition py_in (k : string) (obj : value) : result bool :=
  match obj with
  | VDict items => Ok (match lookup k items with Some _ => true | None => false end)
  | VList items => Ok (existsb (fun x => eq_str x k) items)
  | VStr s => Ok (contains k s)
  | VNone | VBool _ | VInt _ | VFloat _ => Raise TypeError
  end.

(** [iter(obj)]: the items of a list, the characters of a string, the keys
    of a mapping. *)
Definition py_iter (obj : value) : result (list value) :=
  match obj with
  | VList items => Ok items
  | VStr s => Ok (map VStr (chars s))
  | VDict items => Ok (map (fun kv => VStr (fst kv)) items)
  | VNone | VBool _ | VInt _ | VFloat _ => Raise TypeError
  end.

(** [reversed(obj)] *)
Definition py_reversed (obj : value) : result (list value) :=
  items <- py_iter obj ;; Ok (List.rev items).

(** [sep.join(items)]: every item must be a [str]. *)
Fixpoint str_items (items : list value) : result (list string) :=
  match items with
  | [] => Ok []
  | VStr s :: rest => ss <- str_items rest ;; Ok (s :: ss)
  | _ :: _ => Raise TypeError
  end.

Definition py_join (sep : string) (items : list value) : result string :=
  ss <- str_items items ;; Ok (String.concat sep ss).

(** [float(n)] for an [int]: rounded to nearest, ties to even. *)
Definition float_of_int (n : Z) : result spec_float :=
  match binary_normalize prec emax n 0%Z false with
  | S754_infinity _ => Raise OverflowError
  | f => Ok f
  end.

Definition Z_of_bool (b : bool) : Z := if b then 1%Z else 0%Z.

(** [a + b] *)
Definition py_add (a b : value) : result value :=
  let int_of (v : value) : option Z :=
    match v with
    | VInt n => Some n
    | VBool c => Some (Z_of_bool c)
    | _ => None
    end in
  match a, b with
  | VStr s, VStr t => Ok (VStr (s ++ t)%string)
  | VList xs, VList ys => Ok (VList (xs ++ ys))
  | VFloat f, VFloat g => Ok (VFloat (SFadd prec emax f g))
  | VFloat f, _ =>
      match int_of b with
      | Some n => g <- float_of_int n ;; Ok (VFloat (SFadd prec emax f g))
      | None => Raise TypeError
      end
  | _, VFloat g =>
      match int_of a with
      | Some n => f <- float_of_int n ;; Ok (VFloat (SFadd prec emax f g))
      | None => Raise TypeError
      end
  | _, _ =>
      match int_of a, int_of b with
      | Some m, Some n => Ok (VInt (m + n)%Z)
      | _, _ => Raise TypeError
      end
  end.

End Obj.

(** ** [bytes.decode(errors="replace")]

    The UTF-8 decoder of the standard library: a well-formed sequence is
    kept, and each maximal ill-formed part (a byte that cannot start a
    character, a leading part cut short by a byte that cannot continue it or
    by the end of the data) becomes one U+FFFD. *)

Module Codec.

Import Text.

Definition between (lo n hi : nat) : bool := andb (Nat.leb lo n) (Nat.leb n hi).

(** The range allowed for the second byte after the lead byte [b0]. *)
Definition second_ok (b0 b1 : nat) : bool :=
  if Nat.eqb b0 224 then between 160 b1 191
  else if Nat.eqb b0 237 then between 128 b1 159
  else if Nat.eqb b0 240 then between 144 b1 191
  else if Nat.eqb b0 244 then between 128 b1 143
  else between 128 b1 191.

(** How many bytes the part at the head of [s] spans and whether it is a
    well-formed character. *)
Definition utf8_part (s : string) : nat * bool :=
  let code (c : ascii) := nat_of_ascii c in
  let cont (c : ascii) := between 128 (code c) 191 in
  match s with
  | EmptyString => (0, true)
  | String c0 r0 =>
      let b0 := code c0 in
      if Nat.ltb b0 128 then (1, true)
      else if Nat.ltb b0 194 then (1, false)
      else if Nat.ltb b0 224 then
        match r0 with
        | EmptyString => (1, false)
        | String c1 _ => if cont c1 then (2, true) else (1, false)
        end
      else if Nat.ltb b0 245 then
        match r0 with
        | EmptyString => (1, false)
        | String c1 r1 =>
            if negb (second_ok b0 (code c1)) then (1, false)
            else match r1 with
                 | EmptyString => (2, false)
                 | String c2 r2 =>
                     if negb (cont c2) then (2, false)
                     else if Nat.ltb b0 240 then (3, true)
                     else match r2 with
                          | EmptyString => (3, false)
                          | String c3 _ => if cont c3 then (4, true) else (3, false)
                          end
                 end
        end
      else (1, false)
  end.

Definition replacement : string := utf8 65533.

(** [skip] bytes of the current part are still to pass; they are copied when
    [keep] holds. *)
Fixpoint decode_from (s : string) (skip : nat) (keep : bool) : string :=
  match s with
  | EmptyString => EmptyString
  | String c r =>
      match skip with
      | S k => if keep then String c (decode_from r k keep) else decode_from r k keep
      | O =>
          match utf8_part s with
          | (n, true) => String c (decode_from r (Nat.pred n) true)
          | (n, false) => (replacement ++ decode_from r (Nat.pred n) false)%string
          end
      end
  end.

Definition decode (b : string) : string := decode_from b O true.

End Codec.

(** ** [json.loads]

    A reference decoder for the JSON texts the standard library accepts:
    the grammar of RFC 8259 with the literals [NaN], [Infinity] and
    [-Infinity], control characters refused inside strings, only space, tab,
    line feed and carriage return as white space, and the last of several
    equal keys kept.  [None] stands for a raised exception.  The interpreter's
    resource limits (recursion depth, the digit limit of [int]) are not part
    of it. *)

Module Json.

Import Text Obj.

Local Open Scope Z_scope.

Definition quote : ascii := "034"%char.

Definition is_ws (c : ascii) : bool :=
  match c with
  | " "%char | "009"%char | "010"%char | "013"%char => true
  | _ => false
  end.

Fixpoint skip_ws (s : string) : string :=
  match s with
  | EmptyString => EmptyString
  | String c r => if is_ws c then skip_ws r else s
  end.

Definition is_digit (c : ascii) : bool :=
  let n := nat_of_ascii c in andb (Nat.leb 48 n) (Nat.leb n 57).

(** The longest run of digits at the head of [s], and the rest. *)
Fixpoint span_digits (s : string) : string * string :=
  match s with
  | EmptyString => (EmptyString, EmptyString)
  | String c r =>
      if is_digit c then let (ds, rest) := span_digits r in (String c ds, rest)
      else (EmptyString, s)
  end.

Fixpoint digits_onto (acc : Z) (ds : string) : Z :=
  match ds with
  | EmptyString => acc
  | String c r => digits_onto (10 * acc + (Z.of_nat (nat_of_ascii c) - 48)) r
  end.

Definition Z_of_digits (ds : string) : Z := digits_onto 0 ds.

Definition hex_val (c : ascii) : option N :=
  let n := N_of_ascii c in
  if andb (48 <=? n)%N (n <=? 57)%N then Some (n - 48)%N
  else if andb (65 <=? n)%N (n <=? 70)%N then Some (n - 55)%N
  else if andb (97 <=? n)%N (n <=? 102)%N then Some (n - 87)%N
  else None.

(** The value of four hexadecimal digits at the head of [s], and the rest. *)
Definition hex4 (s : string) : option (N * string) :=
  match s with
  | String a (String b (String c (String d r))) =>
      match hex_val a, hex_val b, hex_val c, hex_val d with
      | Some x, Some y, Some z, Some w => Some (((x * 16 + y) * 16 + z) * 16 + w, r)%N
      | _, _, _, _ => None
      end
  | _ => None
  end.

Definition simple_escape (c : ascii) : option ascii :=
  match c with
  | "034"%char => Some quote
  | "\"%char => Some "\"%char
  | "/"%char => Some "/"%char
  | "b"%char => Some "008"%char
  | "f"%char => Some "012"%char
  | "n"%char => Some "010"%char
  | "r"%char => Some "013"%char
  | "t"%char => Some "009"%char
  | _ => None
  end.

(** The body of a string, after its opening quote: the decoded text and what
    follows the closing quote. *)
Fixpoint scan_string (fuel : nat) (s acc : string) : option (string * string) :=
  match fuel with
  | O => None
  | S fuel' =>
      match s with
      | EmptyString => None
      | String c r =>
          if Ascii.eqb c quote then Some (acc, r)
          else if Ascii.eqb c "\"%char then
            match r with
            | EmptyString => None
            | String "u"%char r1 =>
                match hex4 r1 with
                | None => None
                | Some (hi, r2) =>
                    let single := scan_string fuel' r2 (acc ++ utf8 hi)%string in
                    if andb (55296 <=? hi)%N (hi <=? 56319)%N then
                      match r2 with
                      | String "\"%char (String "u"%char r3) =>
                          match hex4 r3 with
                          | None => None
                          | Some (lo, r4) =>
                              if andb (56320 <=? lo)%N (lo <=? 57343)%N then
                                scan_string fuel' r4
                                  (acc ++ utf8 (65536 + (hi - 55296) * 1024 + (lo - 56320))%N)%string
                              else single
                          end
                      | _ => single
                      end
                    else single
                end
            | String e r1 =>
                match simple_escape e with
                | Some d => scan_string fuel' r1 (acc ++ String d EmptyString)%string
                | None => None
                end
            end
          else if Nat.ltb (nat_of_ascii c) 32 then None
          else scan_string fuel' r (acc ++ String c EmptyString)%string
      end
  end.

(** [float] of a decimal [(-1)^neg * m * 10^e] with [0 <= m]: the nearest
    binary64 number, ties to even. A quotient is cut to at least 56 bits with
    a sticky last bit before it is rounded. *)
Definition float_of_decimal (neg : bool) (m e : Z) : spec_float :=
  let sign (z : Z) := if neg then - z else z in
  if m =? 0 then S754_zero neg
  else if 0 <=? e then binary_normalize prec emax (sign (m * 10 ^ e)) 0 false
  else
    let d := 10 ^ (- e) in
    let k := 55 + Z.log2_up d in
    let n := m * 2 ^ k in
    let sticky := if n mod d =? 0 then 0 else 1 in
    binary_normalize prec emax (sign (2 * (n / d) + sticky)) (- (k + 1)) false.

(** A number at the head of [s]: an [int] unless it has a fraction or an
    exponent. *)
Definition scan_number (s : string) : option (value * string) :=
  let (neg, s1) :=
    match s with
    | String "-"%char r => (true, r)
    | _ => (false, s)
    end in
  let int_part : option (string * string) :=
    match s1 with
    | String "0"%char r => Some ("0"%string, r)
    | String c _ => if is_digit c then Some (span_digits s1) else None
    | EmptyString => None
    end in
  match int_part with
  | None => None
  | Some (ip, s2) =>
      let (frac, s3) :=
        match s2 with
        | String "."%char r =>
            match span_digits r with
            | (EmptyString, _) => (EmptyString, s2)
            | (ds, rest) => (ds, rest)
            end
        | _ => (EmptyString, s2)
        end in
      let exponent : option (Z * string) :=
        match s3 with
        | String c r =>
            if orb (Ascii.eqb c "e"%char) (Ascii.eqb c "E"%char) then
              let (eneg, r1) :=
                match r with
                | String "-"%char r' => (true, r')
                | String "+"%char r' => (false, r')
                | _ => (false, r)
                end in
              match span_digits r1 with
              | (EmptyString, _) => None
              | (ds, rest) => Some (if eneg then - Z_of_digits ds else Z_of_digits ds, rest)
              end
            else None
        | EmptyString => None
        end in
      match frac, exponent with
      | EmptyString, None => Some (VInt (if neg then - Z_of_digits ip else Z_of_digits ip), s3)
      | _, None =>
          Some (VFloat (float_of_decimal neg (Z_of_digits (ip ++ frac)%string)
                          (- Z.of_nat (String.length frac))), s3)
      | _, Some (e, s4) =>
          Some (VFloat (float_of_decimal neg (Z_of_digits (ip ++ frac)%string)
                          (e - Z.of_nat (String.length frac))), s4)
      end
  end.

(** One JSON value at the head of [s] and the text after it. Two nested
    calls pass at least one character, so a fuel above twice the length of
    the text is never used up. *)
Fixpoint scan_once (fuel : nat) (s : string) : option (value * string) :=
  match fuel with
  | O => None
  | S fuel' =>
      match s with
      | EmptyString => None
      | String c r =>
          if Ascii.eqb c quote then
            match scan_string (S (String.length r)) r EmptyString with
            | Some (t, rest) => Some (VStr t, rest)
            | None => None
            end
          else if Ascii.eqb c "{"%char then
            match skip_ws r with
            | String "}"%char rest => Some (VDict [], rest)
            | String "034"%char _ as r1 => scan_members fuel' r1 []
            | _ => None
            end
          else if Ascii.eqb c "["%char then
            match skip_ws r with
            | String "]"%char rest => Some (VList [], rest)
            | r1 => scan_elements fuel' r1 []
            end
          else if prefix "null" s then Some (VNone, drop 4 s)
          else if prefix "true" s then Some (VBool true, drop 4 s)
          else if prefix "false" s then Some (VBool false, drop 5 s)
          else
            match scan_number s with
            | Some found => Some found
            | None =>
                if prefix "NaN" s then Some (VFloat S754_nan, drop 3 s)
                else if prefix "Infinity" s then Some (VFloat (S754_infinity false), drop 8 s)
                else if prefix "-Infinity" s then Some (VFloat (S754_infinity true), drop 9 s)
                else None
            end
      end
  end

(** The members of an object from the opening quote of a key on. *)
with scan_members (fuel : nat) (s : string) (acc : list (string * value))
  : option (value * string) :=
  match fuel with
  | O => None
  | S fuel' =>
      match s with
      | String "034"%char r =>
          match scan_string (S (String.length r)) r EmptyString with
          | None => None
          | Some (key, r1) =>
              match skip_ws r1 with
              | String ":"%char r2 =>
                  match scan_once fuel' (skip_ws r2) with
                  | None => None
                  | Some (v, r3) =>
                      let acc' := store key v acc in
                      match skip_ws r3 with
                      | String "}"%char rest => Some (VDict acc', rest)
                      | String ","%char r4 => scan_members fuel' (skip_ws r4) acc'
                      | _ => None
                      end
                  end
              | _ => None
              end
          end
      | _ => None
      end
  end

(** The elements of an array from the first character of an element on. *)
with scan_elements (fuel : nat) (s : string) (acc : list value) : option (value * string) :=
  match fuel with
  | O => None
  | S fuel' =>
      match scan_once fuel' s with
      | None => None
      | Some (v, r1) =>
          match skip_ws r1 with
          | String "]"%char rest => Some (VList (acc ++ [v]), rest)
          | String ","%char r2 => scan_elements fuel' (skip_ws r2) (acc ++ [v])
          | _ => None
          end
      end
  end.

(** [json.loads(s)] for a [str]: a text that starts with a byte order mark is
    refused, and so is any text after the value other than white space. *)
Definition loads (s : string) : option value :=
  if prefix (utf8 65279) s then None
  else
    match scan_once (2 * String.length s + 2) (skip_ws s) with
    | Some (v, rest) => if is_empty (skip_ws rest) then Some v else None
    | None => None
    end.

End Json.

(** ** The helpers of [app.py] *)

Module App.

Import Text Obj.

(** The attributes set on a span, in the order of the [set_attribute] calls. *)
Definition span : Type := list (string * value).

Definition set_attribute (sp : span) (k : string) (v : value) : span := sp ++ [(k, v)].

(** The inbound request as the route handler reads it: [request.method],
    [request.headers.items()], [request.query_params], [await request.body()]. *)
Record Request : Type := {
  method : string;
  headers : list (string * string);
  query_params : list (string * string);
  body : string
}.

(** The arguments of [client.request]. *)
Record Outbound : Type := {
  out_method : string;
  out_url : string;
  out_headers : list (string * string);
  out_params : list (string * string);
  out_content : string
}.

(** The backend's answer: [resp.status_code], [resp.headers.items()] (one
    item per header name) and [resp.content]. *)
Record BackendResponse : Type := {
  status_code : Z;
  resp_headers : list (string * string);
  content : string
}.

(** The arguments the handler builds its [Response] from. *)
Record Response : Type := {
  r_content : string;
  r_status_code : Z;
  r_headers : list (string * string);
  r_media_type : option string
}.

(** [d[k] = v] on a mapping of header names to header values. *)
Fixpoint header_store (k v : string) (d : list (string * string)) : list (string * string) :=
  match d with
  | [] => [(k, v)]
  | (k', v') :: rest =>
      if String.eqb k k' then (k, v) :: rest else (k', v') :: header_store k v rest
  end.

(** [{k: v for k, v in items}] *)
Definition dict_of_items (items : list (string * string)) : list (string * string) :=
  fold_left (fun d kv => header_store (fst kv) (snd kv) d) items [].

(** [resp.headers.get(name)] for a lower-case [name]: header names are
    matched without regard to case. *)
Fixpoint header_get (name : string) (items : list (string * string)) : option string :=
  match items with
  | [] => None
  | (k, v) :: rest => if String.eqb (lower k) name then Some v else header_get name rest
  end.

Definition newline : string := String "010"%char EmptyString.

(** The default of the [prefix] parameter of [_extract_last_json_from_blob]. *)
Definition default_prefix : string := "stringValue:".

(** [line.split(prefix, 1)[-1] if (prefix and prefix in line) else line] *)
Definition candidate_of (prefix line : string) : string :=
  if andb (negb (is_empty prefix)) (contains prefix line)
  then last_item (split_once prefix line)
  else line.

(** [ln.strip() for ln in blob.splitlines() if ln.strip()] *)
Definition nonblank_lines (blob : string) : list string :=
  map strip (filter (fun ln => negb (is_empty (strip ln))) (splitlines blob)).

(** [next((m.get("content", "") for m in ms if m.get("role") == role), "")] *)
Fixpoint first_with_role (role : string) (ms : list value) : result value :=
  match ms with
  | [] => Ok (VStr "")
  | m :: rest =>
      r <- py_get m "role" VNone ;;
      if eq_str r role then py_get m "content" (VStr "")
      else first_with_role role rest
  end.

(** [[m.get("content", "") for m in ms if m.get("role") == role]] *)
Fixpoint contents_with_role (role : string) (ms : list value) : result (list value) :=
  match ms with
  | [] => Ok []
  | m :: rest =>
      r <- py_get m "role" VNone ;;
      if eq_str r role then
        c <- py_get m "content" (VStr "") ;;
        cs <- contents_with_role role rest ;;
        Ok (c :: cs)
      else contents_with_role role rest
  end.

(** The last user message: lines 126 and 177. [reversed] of a mapping is
    that of Python 3.8 and later. *)
Definition last_user_prompt (messages : value) : result value :=
  ms <- py_reversed messages ;;
  first_with_role "user" ms.

(** The system messages joined by a line feed: lines 127 and 178. *)
Definition system_prompt (messages : value) : result string :=
  ms <- py_iter messages ;;
  cs <- contents_with_role "system" ms ;;
  py_join newline cs.

Section Helpers.

(** [json.loads] of the standard library on a [str]: [None] when it raises. *)
Variable json_loads : string -> option value.

(** Lines 55-60. *)
Definition _safe_json_loads (text : string) : value :=
  match json_loads text with
  | Some v => v
  | None => VDict []
  end.

(** The loop of lines 69-74 over the lines still to visit. *)
Fixpoint last_json_scan (prefix : string) (lines : list string) : value :=
  match lines with
  | [] => VDict []
  | line :: rest =>
      let candidate := candidate_of prefix line in
      let data := _safe_json_loads (strip candidate) in
      if truthy data then data else last_json_scan prefix rest
  end.

(** Lines 62-74 ([parse_last_json]). *)
Definition _extract_last_json_from_blob (blob prefix : string) : value :=
  if is_empty blob then VDict []
  else
    let lines :=
      match nonblank_lines blob with
      | [] => [blob]
      | found => found
      end in
    last_json_scan prefix (List.rev lines).

(** The loop of lines 81-94: the pieces gathered after the lines [lns]. *)
Fixpoint aggregate_lines (prefix : string) (lns : list string) (pieces : list value)
  : result (list value) :=
  match lns with
  | [] => Ok pieces
  | ln :: rest =>
      let candidate := candidate_of prefix ln in
      let obj := _safe_json_loads candidate in
      if negb (truthy obj) then aggregate_lines prefix rest pieces
      else
        msg <- py_get obj "message" (VDict []) ;;
        role <- py_get msg "role" VNone ;;
        if eq_str role "assistant" then
          c <- py_get msg "content" (VStr "") ;;
          aggregate_lines prefix rest (pieces ++ [c])
        else
          choices <- py_get obj "choices" (VList [VDict []]) ;;
          first <- py_item0 choices ;;
          delta <- py_get first "delta" (VDict []) ;;
          c <- py_get delta "content" VNone ;;
          if truthy c then aggregate_lines prefix rest (pieces ++ [c])
          else aggregate_lines prefix rest pieces
  end.

(** Lines 76-95 ([aggregate_completion]). *)
Definition _aggregate_completion_from_stream (blob prefix : string) : result string :=
  if is_empty blob then Ok ""
  else
    pieces <- aggregate_lines prefix (nonblank_lines blob) [] ;;
    py_join "" pieces.

(** [data.get("choices", [{}])[0]] *)
Definition first_choice (data : value) : result value :=
  choices <- py_get data "choices" (VList [VDict []]) ;;
  py_item0 choices.

(** Lines 97-103 ([first_completion_text]). *)
Definition _extract_first_completion_text (data : value) : result value :=
  if negb (truthy data) then Ok (VStr "")
  else
    try_except
      (c0 <- first_choice data ;;
       msg <- py_get c0 "message" (VDict []) ;;
       py_get msg "content" (VStr ""))
      (c0 <- first_choice data ;;
       py_get c0 "text" (VStr "")).

(** Lines 105-116 ([usage_facts]): prompt, completion and total counts. *)
Definition _extract_usage_from_data (data : value) : result (value * value * value) :=
  if negb (truthy data) then Ok (VNone, VNone, VNone)
  else
    usage <- py_get data "usage" (VDict []) ;;
    if truthy usage then
      p <- py_get usage "prompt_tokens" VNone ;;
      c <- py_get usage "completion_tokens" VNone ;;
      t <- py_get usage "total_tokens" VNone ;;
      Ok (p, c, t)
    else
      has_prompt <- py_in "prompt_eval_count" data ;;
      has_any <- (if has_prompt then Ok true else py_in "eval_count" data) ;;
      if (has_any : bool) then
        prompt <- py_get data "prompt_eval_count" VNone ;;
        completion <- py_get data "eval_count" VNone ;;
        total <- (if andb (negb (is_none prompt)) (negb (is_none completion))
                  then py_add prompt completion
                  else Ok VNone) ;;
        Ok (prompt, completion, total)
      else Ok (VNone, VNone, VNone).

(** The usage attributes of lines 149-154 and 215-220. *)
Definition set_usage (sp : span) (usage : value * value * value) : span :=
  let '(in_tokens, out_tokens, total_tokens) := usage in
  let sp1 := if is_none in_tokens then sp
             else set_attribute sp "gen_ai.usage.input_tokens" in_tokens in
  let sp2 := if is_none out_tokens then sp1
             else set_attribute sp1 "gen_ai.usage.output_tokens" out_tokens in
  if is_none total_tokens then sp2
  else set_attribute sp2 "gen_ai.usage.total_tokens" total_tokens.

(** *** [chat_completions], lines 119-159 *)

(** [json.dumps(obj, default=str)] *)
Variable json_dumps : value -> string.

(** The structured client: [oa.chat.completions.create] called with the
    items of the payload as keyword arguments, then [model_dump()]. It is
    assumed to answer. *)
Variable create : value -> value.

(** Line 130, from the payload left after the two [pop]s and the options. *)
Definition chat_request_temperature (payload dify_options : value) : result value :=
  top <- py_get payload "temperature" VNone ;;
  py_or top (py_get dify_options "temperature" VNone).

Definition chat_completions (body : value) : result (span * value) :=
  popped <- py_pop body "options" VNone ;;
  dify_options <- py_or (fst popped) (Ok (VDict [])) ;;
  popped' <- py_pop (snd popped) "format" VNone ;;
  let payload := snd popped' in
  messages <- py_get payload "messages" (VList []) ;;
  user_prompt <- last_user_prompt messages ;;
  system_messages <- system_prompt messages ;;
  request_model <- py_get payload "model" (VStr "") ;;
  request_temperature <- chat_request_temperature payload dify_options ;;
  let sp := set_attribute [] "gen_ai.prompt" user_prompt in
  let sp := set_attribute sp "gen_ai.system" (VStr system_messages) in
  let sp := set_attribute sp "gen_ai.request.model" request_model in
  let sp := if is_none request_temperature then sp
            else set_attribute sp "gen_ai.request.temperature" request_temperature in
  let sp := set_attribute sp "proxy.request.body" (VStr (json_dumps payload)) in
  let data := create payload in
  completion_text <- _extract_first_completion_text data ;;
  usage <- _extract_usage_from_data data ;;
  let sp := set_attribute sp "gen_ai.completion" completion_text in
  let sp := set_usage sp usage in
  let sp := set_attribute sp "proxy.response.body" (VStr (json_dumps data)) in
  Ok (sp, data).

(** *** [dumb_proxy], lines 165-229 *)

(** The normalised [REAL_OLLAMA_URL] of lines 27-29. *)
Variable base : string.

(** [client.request]: the backend, assumed to answer. *)
Variable upstream : Outbound -> BackendResponse.

(** Line 172: the request payload recovered for tracing. *)
Definition proxy_request_data (body_str : string) : value :=
  _extract_last_json_from_blob body_str default_prefix.

(** Line 175. *)
Definition proxy_request_temperature (req_data : value) : result value :=
  top <- py_get req_data "temperature" VNone ;;
  py_or top (options <- py_get req_data "options" (VDict []) ;;
             py_get options "temperature" VNone).

(** Lines 206-209: the completion text read off the backend's answer. *)
Definition proxy_completion_text (resp_text : string) : result value :=
  aggregated <- _aggregate_completion_from_stream resp_text "" ;;
  if is_empty aggregated then
    let resp_data := _extract_last_json_from_blob resp_text "" in
    first <- _extract_first_completion_text resp_data ;;
    py_or first (msg <- py_get resp_data "message" (VDict []) ;;
                 py_get msg "content" (VStr ""))
  else Ok (VStr aggregated).

(** Line 222. *)
Definition safe_headers (items : list (string * string)) : list (string * string) :=
  dict_of_items
    (filter (fun kv =>
               negb (existsb (String.eqb (lower (fst kv)))
                       ["content-encoding"; "transfer-encoding"]))
            items).

(** Lines 224-229. *)
Definition proxied_response (resp : BackendResponse) : Response :=
  {| r_content := content resp;
     r_status_code := status_code resp;
     r_headers := safe_headers (resp_headers resp);
     r_media_type := header_get "content-type" (resp_headers resp) |}.

(** Lines 166-169 and 193-199: what is sent to the backend. *)
Definition forwarded (path : string) (request : Request) : Outbound :=
  {| out_method := method request;
     out_url := (base ++ "/" ++ lstrip_char "/"%char path)%string;
     out_headers :=
       dict_of_items
         (filter (fun kv => negb (String.eqb (lower (fst kv)) "host")) (headers request));
     out_params := query_params request;
     out_content := body request |}.

Definition dumb_proxy (path : string) (request : Request) : result (span * Response) :=
  let call := forwarded path request in
  let body_str := Codec.decode (body request) in
  let req_data := proxy_request_data body_str in
  req_model <- py_get req_data "model" (VStr "") ;;
  req_temperature <- proxy_request_temperature req_data ;;
  messages <- py_get req_data "messages" (VList []) ;;
  req_user_prompt <- last_user_prompt messages ;;
  req_system_prompt <- system_prompt messages ;;
  let sp := set_attribute [] "http.target_url" (VStr (out_url call)) in
  let sp := set_attribute sp "proxy.request.body" (VStr body_str) in
  let sp := set_attribute sp "gen_ai.prompt" req_user_prompt in
  let sp := set_attribute sp "gen_ai.system" (VStr req_system_prompt) in
  let sp := if truthy req_model then set_attribute sp "gen_ai.request.model" req_model
            else sp in
  let sp := if is_none req_temperature then sp
            else set_attribute sp "gen_ai.request.temperature" req_temperature in
  let resp := upstream call in
  let resp_text := Codec.decode (content resp) in
  let sp := set_attribute sp "proxy.response.body" (VStr resp_text) in
  completion_text <- proxy_completion_text resp_text ;;
  let resp_data := _extract_last_json_from_blob resp_text "" in
  usage <- _extract_usage_from_data resp_data ;;
  let sp := set_attribute sp "gen_ai.completion" completion_text in
  let sp := set_usage sp usage in
  Ok (sp, proxied_response resp).

End Helpers.

(** A native-dialect event [{"message": {"role": "assistant", "content": c}}]. *)
Definition native_event (c : string) : value :=
  VDict [("message", VDict [("role", VStr "assistant"); ("content", VStr c)])].

(** A delta-dialect event [{"choices": [{"delta": {"content": c}}]}]. *)
Definition delta_event (c : string) : value :=
  VDict [("choices", VList [VDict [("delta", VDict [("content", VStr c)])]])].

(** The value of the first [set_attribute] call for [k], if any. *)
Definition attribute (k : string) (sp : span) : option value := lookup k sp.

(** The payload has no truthy value under [usage]: the test of line 109
    fails and the native-dialect fields are consulted. *)
Definition without_usage (d : list (string * value)) : Prop :=
  match lookup "usage" d with
  | Some u => truthy u = false
  | None => True
  end.

(** The temperature attribute a handler recorded, if it returned. *)
Definition traced_temperature {A : Type} (outcome : result (span * A)) : option value :=
  match outcome with
  | Ok (sp, _) => attribute "gen_ai.request.temperature" sp
  | Raise _ => None
  end.

(** A backend that answers every call with the same response. *)
Definition answering (resp : BackendResponse) : Outbound -> BackendResponse :=
  fun _ => resp.

Definition post (payload : string) : Request :=
  {| method := "POST"; headers := []; query_params := []; body := payload |}.

Definition plain (payload : string) : BackendResponse :=
  {| status_code := 200%Z; resp_headers := []; content := payload |}.

(** The lines the blob parser scans: the non-blank lines of the blob, or the
    blob itself when it has none (line 68). *)
Definition scanned_lines (blob : string) : list string :=
  match nonblank_lines blob with
  | [] => [blob]
  | found => found
  end.

(** [d.get(k)] from the result of looking [k] up. *)
Definition or_none (found : option value) : value :=
  match found with
  | Some v => v
  | None => VNone
  end.

(** A decoded line that the aggregator reads as a native-dialect event with
    the text [c]: a mapping whose [message] is a mapping with the role
    [assistant] and the content [c]. Other keys are free. *)
Definition native_shape (obj : value) (c : string) : Prop :=
  exists d m,
    obj = VDict d /\
    lookup "message" d = Some (VDict m) /\
    lookup "role" m = Some (VStr "assistant") /\
    lookup "content" m = Some (VStr c).

(** A decoded line that the aggregator reads as a delta-dialect event with
    the text [c]: a mapping without [message] whose [choices] is a list
    that starts with a mapping whose [delta] is a mapping with the content
    [c]. Other keys are free. *)
Definition delta_shape (obj : value) (c : string) : Prop :=
  exists d first rest dl,
    obj = VDict d /\
    lookup "message" d = None /\
    lookup "choices" d = Some (VList (VDict first :: rest)) /\
    lookup "delta" first = Some (VDict dl) /\
    lookup "content" dl = Some (VStr c).

(** A decoded line that is a mapping of neither dialect: it has no
    [choices], and its [message], if any, is a mapping whose role is not
    [assistant] (an event of the generate endpoint, a tool message). *)
Definition silent_shape (obj : value) : Prop :=
  exists d,
    obj = VDict d /\
    lookup "choices" d = None /\
    (lookup "message" d = None \/
     exists m, lookup "message" d = Some (VDict m) /\
               eq_str (or_none (lookup "role" m)) "assistant" = false).

(** What a line adds to the aggregated text, for the lines of a well-formed
    stream: nothing when it does not decode, decodes to a falsy value or to
    a mapping of neither dialect, the content of the event otherwise. *)
Definition line_adds (json_loads : string -> option value) (ln c : string) : Prop :=
  (json_loads ln = None /\ c = "") \/
  (exists v, json_loads ln = Some v /\ truthy v = false /\ c = "") \/
  (exists v, json_loads ln = Some v /\ native_shape v c) \/
  (exists v, json_loads ln = Some v /\ delta_shape v c) \/
  (exists v, json_loads ln = Some v /\ silent_shape v /\ c = "").

(** A chat message [{"role": role, "content": text}]. *)
Definition message (rc : string * string) : value :=
  VDict [("role", VStr (fst rc)); ("content", VStr (snd rc))].



(** [t] occurs in [s]. *)
Definition occurs_in (t s : string) : Prop :=
  exists a b, s = (a ++ t ++ b)%string.

Definition is_ascii_text (s : string) : Prop :=
  Forall (fun c => (nat_of_ascii c < 128)%nat) (list_ascii_of_string s).


(** The span a handler recorded, empty if it raised. *)
Definition span_of {A : Type} (outcome : result (span * A)) : span :=
  match outcome with
  | Ok (sp, _) => sp
  | Raise _ => []
  end.

(** A fact as the handlers record it: no attribute for [None]. *)
Definition recorded (fact : value) : option value :=
  if is_none fact then None else Some fact.

(** Two events of a native-dialect stream. *)
Definition foo_bar_stream : string :=
  (dq "{'message':{'role':'assistant','content':'foo'}}" ++ newline ++
   dq "{'message':{'role':'assistant','content':'bar'},'prompt_eval_count':3,'eval_count':2}")%string.

(** A request of two messages and a structured answer to it. *)
Definition hi_request : value :=
  VDict [("model", VStr "m");
         ("messages", VList (map message [("system", "sys"); ("user", "hi")]))].

Definition hello_answer : value :=
  VDict [("choices", VList [VDict [("message", VDict [("role", VStr "assistant");
                                                      ("content", VStr "hello")])]]);
         ("usage", VDict [("prompt_tokens", VInt 3); ("completion_tokens", VInt 1)])].

(** The request headers the generic handler forwards (line 169). *)
Definition forwardable (kv : string * string) : bool :=
  negb (String.eqb (lower (fst kv)) "host").

End App.

(** * Properties *)

Import Text Obj App.

(** ** Basic facts about the Python primitives *)

Lemma bind_ok {A B : Type} (c : result A) (k : A -> result B) (b : B) :
  bind c k = Ok b -> exists a, c = Ok a /\ k a = Ok b.
Proof.
  destruct c as [a | e]; simpl; intros H.
  - exists a. split; [reflexivity | exact H].
  - discriminate H.
Qed.

Lemma py_get_dict (items : list (string * value)) (k : string) (default : value) :
  py_get (VDict items) k default =
  Ok (match lookup k items with Some v => v | None => default end).
Proof. unfold py_get. destruct (lookup k items); reflexivity. Qed.

Lemma py_get_ok_dict (obj : value) (k : string) (default v : value) :
  py_get obj k default = Ok v -> exists items, obj = VDict items.
Proof.
  destruct obj; simpl; intros H; try discriminate H.
  eexists; reflexivity.
Qed.

Lemma truthy_dict_cons (kv : string * value) (items : list (string * value)) :
  truthy (VDict (kv :: items)) = true.
Proof. reflexivity. Qed.

Lemma lookup_some_truthy (k : string) (items : list (string * value)) (v : value) :
  lookup k items = Some v -> truthy (VDict items) = true.
Proof. destruct items; [discriminate | reflexivity]. Qed.

Lemma candidate_of_empty_prefix (line : string) : candidate_of "" line = line.
Proof. reflexivity. Qed.

Lemma str_items_strs (cs : list string) : str_items (map VStr cs) = Ok cs.
Proof.
  induction cs as [| c cs IH]; simpl; [reflexivity |].
  rewrite IH. reflexivity.
Qed.

Lemma py_join_strs (sep : string) (cs : list string) :
  py_join sep (map VStr cs) = Ok (String.concat sep cs).
Proof. unfold py_join. rewrite str_items_strs. reflexivity. Qed.

(** ** The stream aggregator on well-formed streams *)

Section Aggregation.

Variable json_loads : string -> option value.

Lemma aggregate_lines_native (lns cs : list string) :
  Forall2 (fun ln c => json_loads ln = Some (native_event c)) lns cs ->
  forall pieces,
    aggregate_lines json_loads "" lns pieces = Ok (pieces ++ map VStr cs).
Proof.
  induction 1 as [| ln c lns cs Hln _ IH]; intros pieces; cbn [aggregate_lines map].
  - rewrite app_nil_r. reflexivity.
  - rewrite candidate_of_empty_prefix. unfold _safe_json_loads. rewrite Hln.
    cbn. rewrite IH, <- app_assoc. reflexivity.
Qed.

End Aggregation.

(** ** The claims *)

(** C1 (the code does not keep it). [aggregate_completion] and
    [first_completion_text] are claimed never to raise. On the stream line
    [{"choices":[]}], which the claim names, the aggregator raises
    [IndexError] at [obj.get("choices", [{}])[0]]; on the payload decoded from
    it, [first_completion_text] raises [IndexError] a second time inside its
    [except] branch. *)
Theorem extraction_raises_on_empty_choices :
  _aggregate_completion_from_stream Json.loads (dq "{'choices':[]}") "" = Raise IndexError /\
  Json.loads (dq "{'choices':[]}") = Some (VDict [("choices", VList [])]) /\
  _extract_first_completion_text (VDict [("choices", VList [])]) = Raise IndexError.
Proof. repeat split; vm_compute; reflexivity. Qed.

(** C2 (the code does not keep it). [parse_last_json] is claimed to return a
    mapping always; on the blob [[1]] it returns the decoded list, because
    line 72 tests only the truth value of the decode. *)
Theorem parse_last_json_returns_a_list :
  _extract_last_json_from_blob Json.loads "[1]" default_prefix = VList [VInt 1] /\
  _extract_last_json_from_blob Json.loads "[1]" "" = VList [VInt 1].
Proof. split; vm_compute; reflexivity. Qed.

(** C3 (the code does not keep it). With [choices[0]] a mapping that has a
    [text] and no [message], [first_completion_text] is claimed to return the
    text; the [try] body succeeds with the default of [.get("content", "")],
    so the [except] branch that reads [text] is never entered and the result
    is the empty string. *)
Theorem first_completion_text_ignores_text :
  Json.loads (dq "{'choices':[{'text':'t'}]}")
    = Some (VDict [("choices", VList [VDict [("text", VStr "t")]])]) /\
  _extract_first_completion_text (VDict [("choices", VList [VDict [("text", VStr "t")]])])
    = Ok (VStr "").
Proof. split; vm_compute; reflexivity. Qed.

(** What lines 111-116 compute for a mapping that fails the test of
    line 109. *)
Lemma usage_of_mapping_native (d : list (string * value)) :
  without_usage d ->
  _extract_usage_from_data (VDict d) =
  match d with
  | [] => Ok (VNone, VNone, VNone)
  | _ :: _ =>
      match lookup "prompt_eval_count" d, lookup "eval_count" d with
      | None, None => Ok (VNone, VNone, VNone)
      | pv, cv =>
          let prompt := match pv with Some v => v | None => VNone end in
          let completion := match cv with Some v => v | None => VNone end in
          total <- (if andb (negb (is_none prompt)) (negb (is_none completion))
                    then py_add prompt completion
                    else Ok VNone) ;;
          Ok (prompt, completion, total)
      end
  end.
Proof.
  unfold without_usage. intros Hu. destruct d as [| kv d']; [reflexivity |].
  unfold _extract_usage_from_data. rewrite truthy_dict_cons. cbn [negb].
  rewrite py_get_dict.
  assert (Hfalsy : truthy (match lookup "usage" (kv :: d') with
                           | Some v => v
                           | None => VDict []
                           end) = false).
  { destruct (lookup "usage" (kv :: d')); [exact Hu | reflexivity]. }
  cbn [bind]. rewrite Hfalsy. rewrite !py_get_dict. unfold py_in.
  destruct (lookup "prompt_eval_count" (kv :: d'));
    destruct (lookup "eval_count" (kv :: d')); reflexivity.
Qed.

(** C4, the claim as stated fails: under the [usage] schema the counts 10 and
    5 are present, the payload carries no total, and the total returned is
    absent, not 15. *)
Lemma usage_schema_total_not_summed :
  let usage := [("prompt_tokens", VInt 10); ("completion_tokens", VInt 5)] in
  lookup "total_tokens" usage = None /\
  _extract_usage_from_data (VDict [("usage", VDict usage)]) = Ok (VInt 10, VInt 5, VNone) /\
  VNone <> VInt (10 + 5).
Proof. cbv zeta. split; [reflexivity | split; [reflexivity | discriminate]]. Qed.

(** C4 as amended: when a payload has no non-empty [usage] value and
    [usage_facts] yields integer prompt and completion counts [p] and [c]
    (read from [prompt_eval_count] and [eval_count]), the total it yields is
    present and is [p + c]. *)
Theorem native_total_is_sum (d : list (string * value)) (p c : Z) (t : value) :
  without_usage d ->
  _extract_usage_from_data (VDict d) = Ok (VInt p, VInt c, t) ->
  t = VInt (p + c).
Proof.
  intros Hu H. rewrite (usage_of_mapping_native d Hu) in H.
  destruct d as [| kv d']; [discriminate H |].
  destruct (lookup "prompt_eval_count" (kv :: d')) as [pv |];
    destruct (lookup "eval_count" (kv :: d')) as [cv |]; cbn in H.
  - destruct pv; try discriminate H;
      destruct cv; cbn in H; try discriminate H;
      try (destruct (float_of_int _); discriminate H).
    injection H as -> -> <-. reflexivity.
  - rewrite Bool.andb_false_r in H. cbn in H. discriminate H.
  - discriminate H.
  - discriminate H.
Qed.

Lemma native_total_is_sum_witness :
  _extract_usage_from_data (VDict [("prompt_eval_count", VInt 10); ("eval_count", VInt 5)])
    = Ok (VInt 10, VInt 5, VInt 15) /\
  VInt 15 = VInt (10 + 5).
Proof.
  split; [reflexivity |].
  apply (native_total_is_sum [("prompt_eval_count", VInt 10); ("eval_count", VInt 5)]).
  - exact I.
  - reflexivity.
Defined.

(** C5, the claim as stated fails: the payload [{"usage":7}] holds no usage
    object (the value under [usage] is a number, not a mapping) and neither
    native-dialect field, and [usage_facts] does not return
    [(None, None, None)] for it: the number passes the test [if usage:] of
    line 109 and [usage.get] raises [AttributeError] at line 110. *)
Lemma usage_facts_raises_on_scalar_usage :
  let d := [("usage", VInt 7)] in
  Json.loads (dq "{'usage':7}") = Some (VDict d) /\
  (forall u, lookup "usage" d <> Some (VDict u)) /\
  lookup "prompt_eval_count" d = None /\
  lookup "eval_count" d = None /\
  _extract_usage_from_data (VDict d) = Raise AttributeError /\
  _extract_usage_from_data (VDict d) <> Ok (VNone, VNone, VNone).
Proof.
  cbv zeta. split; [vm_compute; reflexivity |].
  split; [intros u H; discriminate H |].
  split; [reflexivity | split; [reflexivity | split; [reflexivity | discriminate]]].
Qed.

(** C5 as amended. [usage_facts] returns [(10, 5, None)] for
    [{"usage":{"prompt_tokens":10,"completion_tokens":5}}], [(10, 5, 15)] for
    [{"prompt_eval_count":10,"eval_count":5}], and [(None, None, None)] for
    every payload whose value under [usage] is absent or falsy (an empty
    mapping, [null], [false], [0], an empty string or list) and that holds
    neither of the two native-dialect fields. *)
Theorem usage_facts_by_schema :
  _extract_usage_from_data
    (VDict [("usage", VDict [("prompt_tokens", VInt 10); ("completion_tokens", VInt 5)])])
    = Ok (VInt 10, VInt 5, VNone) /\
  _extract_usage_from_data (VDict [("prompt_eval_count", VInt 10); ("eval_count", VInt 5)])
    = Ok (VInt 10, VInt 5, VInt 15) /\
  (forall d : list (string * value),
      without_usage d ->
      lookup "prompt_eval_count" d = None ->
      lookup "eval_count" d = None ->
      _extract_usage_from_data (VDict d) = Ok (VNone, VNone, VNone)).
Proof.
  split; [reflexivity | split; [reflexivity |]].
  intros d Hu Hp Hc. rewrite (usage_of_mapping_native d Hu), Hp, Hc.
  destruct d; reflexivity.
Qed.

Lemma usage_facts_by_schema_witness :
  _extract_usage_from_data (VDict [("model", VStr "m"); ("usage", VDict [])])
    = Ok (VNone, VNone, VNone).
Proof.
  apply (proj2 (proj2 usage_facts_by_schema)); reflexivity.
Defined.

(** C6 (the code does not keep it). A top-level temperature that is present
    is claimed to win over the one inside [options], the value 0 included.
    Both handlers combine the two with [or], so a top-level 0 is replaced by
    the temperature of [options] (here 1), and is dropped when [options] has
    none. *)
Theorem zero_temperature_is_replaced :
  (forall (json_dumps : value -> string),
      option_map
        (fun body => traced_temperature
                       (chat_completions json_dumps (fun _ => VDict []) body))
        (Json.loads (dq "{'model':'m','temperature':0,'options':{'temperature':1}}"))
      = Some (Some (VInt 1))) /\
  (forall (base : string),
      traced_temperature
        (dumb_proxy Json.loads base (answering (plain ""))
           "api/chat" (post (dq "{'model':'m','temperature':0,'options':{'temperature':1}}")))
      = Some (VInt 1)) /\
  (forall (base : string),
      traced_temperature
        (dumb_proxy Json.loads base (answering (plain ""))
           "api/chat" (post (dq "{'model':'m','temperature':0}")))
      = None) /\
  chat_request_temperature (VDict [("temperature", VInt 0)]) (VDict [("temperature", VInt 1)])
    = Ok (VInt 1) /\
  proxy_request_temperature
    (VDict [("temperature", VInt 0); ("options", VDict [("temperature", VInt 1)])])
    = Ok (VInt 1).
Proof.
  split; [| split; [| split; [| split]]]; intros; vm_compute; reflexivity.
Qed.

(** C7 (the code does not keep it). The request payload of the generic
    handler is claimed to be [parse_last_json] with an empty prefix; line 172
    leaves the prefix at its default [stringValue:], so the text of a line up
    to that marker is cut away before decoding. The body
    [{"model":"stringValue:m"}] is recovered as the empty mapping, and no
    model attribute is recorded. *)
Theorem request_payload_uses_default_prefix :
  let body := dq "{'model':'stringValue:m'}" in
  proxy_request_data Json.loads (Codec.decode body) = VDict [] /\
  _extract_last_json_from_blob Json.loads (Codec.decode body) ""
    = VDict [("model", VStr "stringValue:m")] /\
  (forall (base : string),
      match dumb_proxy Json.loads base (answering (plain "")) "api/chat" (post body) with
      | Ok (sp, _) => attribute "gen_ai.request.model" sp
      | Raise _ => Some VNone
      end = None).
Proof.
  cbv zeta. split; [| split]; intros; vm_compute; reflexivity.
Qed.

(** C8. For every blob whose non-blank lines, as the aggregator reads them
    (each line of [splitlines], stripped), all decode to native-dialect
    events [{"message":{"role":"assistant","content":c_i}}] with string
    contents, [aggregate_completion] returns [c_1 ++ c_2 ++ ...], in line
    order and with nothing in between. *)
Theorem aggregate_native_stream
  (json_loads : string -> option value) (blob : string) (cs : list string) :
  Forall2 (fun ln c => json_loads ln = Some (native_event c)) (nonblank_lines blob) cs ->
  _aggregate_completion_from_stream json_loads blob "" = Ok (String.concat "" cs).
Proof.
  intros H. unfold _aggregate_completion_from_stream.
  destruct (is_empty blob) eqn:Hblob.
  - destruct blob; [| discriminate Hblob].
    inversion H. reflexivity.
  - rewrite (aggregate_lines_native json_loads _ _ H). cbn [bind app].
    apply py_join_strs.
Qed.

Lemma aggregate_native_stream_witness :
  _aggregate_completion_from_stream Json.loads
    (dq "{'message':{'role':'assistant','content':'foo'}}" ++ newline ++
     dq "{'message':{'role':'assistant','content':'bar'}}")%string ""
  = Ok "foobar".
Proof.
  apply (aggregate_native_stream Json.loads _ ["foo"; "bar"]).
  repeat constructor.
Defined.

(** C9 (the code does not keep it). The generic handler is claimed to hand
    back the backend's body and status for every backend response. Whatever
    the request, a backend body [[1]] makes the handler raise before it
    builds its response: the aggregator calls [.get] on the decoded list (the
    defect of C1 and C2). *)
Theorem proxy_raises_on_list_body
  (base path : string) (request : Request) (status : Z) (hs : list (string * string)) :
  raises
    (dumb_proxy Json.loads base
       (answering {| status_code := status; resp_headers := hs; content := "[1]" |})
       path request).
Proof.
  unfold dumb_proxy, raises. cbv zeta.
  do 5 match goal with
       | |- exists e, bind ?c _ = Raise e =>
           destruct c; cbn [bind]; [| eexists; reflexivity]
       end.
  exists AttributeError. reflexivity.
Qed.

(** C10. For every payload whose [usage] is a non-empty mapping that has
    none of the keys [prompt_tokens], [completion_tokens] and
    [total_tokens], [usage_facts] returns [(None, None, None)], whatever the
    payload holds under [prompt_eval_count] and [eval_count]. *)
Theorem usage_mapping_shadows_native (d u : list (string * value)) :
  lookup "usage" d = Some (VDict u) ->
  u <> [] ->
  lookup "prompt_tokens" u = None ->
  lookup "completion_tokens" u = None ->
  lookup "total_tokens" u = None ->
  _extract_usage_from_data (VDict d) = Ok (VNone, VNone, VNone).
Proof.
  intros Hd Hu Hp Hc Ht. unfold _extract_usage_from_data.
  rewrite (lookup_some_truthy _ _ _ Hd). cbn [negb].
  rewrite py_get_dict, Hd. cbn [bind].
  destruct u as [| kv u']; [contradiction Hu; reflexivity |].
  rewrite truthy_dict_cons, !py_get_dict, Hp, Hc, Ht. reflexivity.
Qed.

Lemma usage_mapping_shadows_native_witness :
  _extract_usage_from_data
    (VDict [("usage", VDict [("cached", VInt 1)]);
            ("prompt_eval_count", VInt 10); ("eval_count", VInt 5)])
  = Ok (VNone, VNone, VNone).
Proof.
  apply (usage_mapping_shadows_native _ [("cached", VInt 1)]);
    [reflexivity | discriminate | reflexivity | reflexivity | reflexivity].
Defined.

(** ** Header mappings built by a dict comprehension *)

Lemma header_store_in (k v : string) (d : list (string * string)) (kv : string * string) :
  In kv (header_store k v d) -> kv = (k, v) \/ In kv d.
Proof.
  induction d as [| [k' v'] d IH]; simpl.
  - intros [H | []]. left. symmetry. exact H.
  - destruct (String.eqb k k'); simpl.
    + intros [H | H]; [left; symmetry; exact H | right; right; exact H].
    + intros [H | H]; [right; left; exact H |].
      destruct (IH H) as [E | E]; [left; exact E | right; right; exact E].
Qed.

Lemma header_store_keys (k v : string) (d : list (string * string)) (k0 : string) :
  In k0 (map fst (header_store k v d)) <-> k0 = k \/ In k0 (map fst d).
Proof.
  induction d as [| [k' v'] d IH]; simpl.
  - split; [intros [H | []]; left; symmetry; exact H | intros [H | []]; left; symmetry; exact H].
  - destruct (String.eqb k k') eqn:E; simpl.
    + apply String.eqb_eq in E. subst k'. split.
      * intros [H | H]; [left; symmetry; exact H | right; right; exact H].
      * intros [H | [H | H]]; [left; symmetry; exact H | left; exact H | right; exact H].
    + rewrite IH. split.
      * intros [H | [H | H]]; [right; left; exact H | left; exact H | right; right; exact H].
      * intros [H | [H | H]]; [right; left; exact H | left; exact H | right; right; exact H].
Qed.

Lemma header_store_fresh (k v : string) (d : list (string * string)) :
  ~ In k (map fst d) -> header_store k v d = d ++ [(k, v)].
Proof.
  induction d as [| [k' v'] d IH]; simpl; intros H; [reflexivity |].
  destruct (String.eqb k k') eqn:E.
  - apply String.eqb_eq in E. contradiction H. left. symmetry. exact E.
  - rewrite IH; [reflexivity |]. intros Hin. apply H. right. exact Hin.
Qed.

Lemma fold_store_in (items acc : list (string * string)) (kv : string * string) :
  In kv (fold_left (fun d x => header_store (fst x) (snd x) d) items acc) ->
  In kv acc \/ In kv items.
Proof.
  revert acc. induction items as [| [k v] items IH]; simpl; intros acc H.
  - left. exact H.
  - destruct (IH _ H) as [Hacc | Hitems]; [| right; right; exact Hitems].
    destruct (header_store_in _ _ _ _ Hacc) as [E | Hin].
    + right. left. symmetry. exact E.
    + left. exact Hin.
Qed.

Lemma fold_store_keys (items acc : list (string * string)) (k : string) :
  In k (map fst acc) \/ In k (map fst items) ->
  In k (map fst (fold_left (fun d x => header_store (fst x) (snd x) d) items acc)).
Proof.
  revert acc. induction items as [| [k' v'] items IH]; simpl; intros acc H.
  - destruct H as [H | []]. exact H.
  - apply IH. destruct H as [H | [H | H]].
    + left. apply header_store_keys. right. exact H.
    + left. apply header_store_keys. left. symmetry. exact H.
    + right. exact H.
Qed.

Lemma fold_store_fresh (items acc : list (string * string)) :
  NoDup (map fst items) ->
  (forall k, In k (map fst items) -> ~ In k (map fst acc)) ->
  fold_left (fun d x => header_store (fst x) (snd x) d) items acc = acc ++ items.
Proof.
  revert acc. induction items as [| [k v] items IH]; simpl; intros acc Hnd Hfresh.
  - rewrite app_nil_r. reflexivity.
  - inversion Hnd as [| ? ? Hk Hnd']; subst.
    rewrite header_store_fresh by (apply Hfresh; left; reflexivity).
    rewrite IH; [rewrite <- app_assoc; reflexivity | exact Hnd' |].
    intros k0 Hin. rewrite map_app, in_app_iff. simpl.
    intros [Hacc | [E | []]].
    + apply (Hfresh k0); [right; exact Hin | exact Hacc].
    + subst k0. apply Hk. exact Hin.
Qed.

Lemma dict_of_items_in (items : list (string * string)) (kv : string * string) :
  In kv (dict_of_items items) -> In kv items.
Proof.
  unfold dict_of_items. intros H.
  destruct (fold_store_in _ _ _ H) as [[] | Hin]. exact Hin.
Qed.

Lemma dict_of_items_keys (items : list (string * string)) (k : string) :
  In k (map fst items) -> In k (map fst (dict_of_items items)).
Proof. intros H. apply fold_store_keys. right. exact H. Qed.

Lemma dict_of_items_unique (items : list (string * string)) :
  NoDup (map fst items) -> dict_of_items items = items.
Proof.
  intros H. unfold dict_of_items. rewrite fold_store_fresh; [reflexivity | exact H |].
  intros k _ [].
Qed.

Lemma filter_keys_nodup (f : string * string -> bool) (items : list (string * string)) :
  NoDup (map fst items) -> NoDup (map fst (filter f items)).
Proof.
  induction items as [| kv items IH]; simpl; intros H; [constructor |].
  inversion H as [| ? ? Hk Hnd]; subst.
  destruct (f kv); simpl; [| apply IH; exact Hnd].
  constructor; [| apply IH; exact Hnd].
  intros Hin. apply Hk. apply in_map_iff in Hin. destruct Hin as [x [E Hx]].
  apply in_map_iff. exists x. split; [exact E |].
  apply filter_In in Hx. apply Hx.
Qed.



(** ** The generic handler's response and outbound call *)



Lemma header_store_unique (k v : string) (d : list (string * string)) :
  NoDup (map fst d) -> NoDup (map fst (header_store k v d)).
Proof.
  induction d as [| [k' v'] d IH]; cbn [header_store map fst]; intros H.
  - constructor; [intros [] | constructor].
  - inversion H as [| ? ? Hk Hnd]; subst.
    destruct (String.eqb k k') eqn:E; cbn [map fst].
    + apply String.eqb_eq in E. subst k'. constructor; assumption.
    + constructor; [| apply IH; exact Hnd].
      intros Hin. apply header_store_keys in Hin. destruct Hin as [-> | Hin].
      * rewrite String.eqb_refl in E. discriminate E.
      * apply Hk. exact Hin.
Qed.

Lemma header_store_in_unique (k v : string) (d : list (string * string))
  (k1 v1 : string) :
  NoDup (map fst d) ->
  In (k1, v1) (header_store k v d) ->
  (k1, v1) = (k, v) \/ (In (k1, v1) d /\ k1 <> k).
Proof.
  induction d as [| [k' v'] d IH]; cbn [header_store map fst]; intros Hnd Hin.
  - destruct Hin as [<- | []]. left. reflexivity.
  - inversion Hnd as [| ? ? Hk Hnd']; subst.
    destruct (String.eqb k k') eqn:E.
    + apply String.eqb_eq in E. subst k'. destruct Hin as [<- | Hin].
      * left. reflexivity.
      * right. split; [right; exact Hin |].
        intros ->. apply Hk. apply in_map_iff. exists (k, v1). split; [reflexivity | exact Hin].
    + destruct Hin as [Heq | Hin].
      * injection Heq as <- <-. right. split; [left; reflexivity |].
        intros ->. rewrite String.eqb_refl in E. discriminate E.
      * destruct (IH Hnd' Hin) as [Heq | [Hin' Hne]].
        -- left. exact Heq.
        -- right. split; [right; exact Hin' | exact Hne].
Qed.

Lemma dict_of_items_snoc (items : list (string * string)) (k v : string) :
  dict_of_items (items ++ [(k, v)]) = header_store k v (dict_of_items items).
Proof. unfold dict_of_items. rewrite fold_left_app. reflexivity. Qed.

Lemma dict_of_items_keys_unique (items : list (string * string)) :
  NoDup (map fst (dict_of_items items)).
Proof.
  induction items as [| [k v] items IH] using rev_ind.
  - constructor.
  - rewrite dict_of_items_snoc. apply header_store_unique. exact IH.
Qed.

(** A dict comprehension keeps, for each name, the last value given. *)
Lemma dict_of_items_last (items : list (string * string)) (k v : string) :
  In (k, v) (dict_of_items items) ->
  exists before after,
    items = before ++ (k, v) :: after /\ ~ In k (map fst after).
Proof.
  induction items as [| [k0 v0] items IH] using rev_ind; intros Hin.
  - destruct Hin.
  - rewrite dict_of_items_snoc in Hin.
    destruct (header_store_in_unique _ _ _ _ _ (dict_of_items_keys_unique items) Hin)
      as [Heq | [Hin' Hne]].
    + injection Heq as -> ->. exists items, []. split; [reflexivity | intros []].
    + destruct (IH Hin') as (before & after & -> & Hlast).
      exists before, (after ++ [(k0, v0)]). split.
      * rewrite <- app_assoc. reflexivity.
      * rewrite map_app, in_app_iff. cbn [map fst In].
        intros [H | [H | []]]; [exact (Hlast H) | exact (Hne (eq_sym H))].
Qed.

Lemma filter_split (f : string * string -> bool) (items before after : list (string * string))
  (x : string * string) :
  filter f items = before ++ x :: after ->
  exists before' after',
    items = before' ++ x :: after' /\ filter f after' = after.
Proof.
  revert before. induction items as [| y items IH]; cbn [filter]; intros before H.
  - destruct before; discriminate H.
  - destruct (f y) eqn:Fy.
    + destruct before as [| b before]; cbn [app] in H.
      * injection H as -> <-. exists [], items. split; reflexivity.
      * injection H as -> H. destruct (IH _ H) as (b' & a' & -> & Ha).
        exists (b :: b'), a'. split; [reflexivity | exact Ha].
    + destruct (IH _ H) as (b' & a' & -> & Ha).
      exists (y :: b'), a'. split; [reflexivity | exact Ha].
Qed.

Lemma forwarded_header_last (items : list (string * string)) (k v : string) :
  In (k, v) (dict_of_items (filter forwardable items)) ->
  exists before after,
    items = before ++ (k, v) :: after /\ ~ In k (map fst after).
Proof.
  intros Hin. pose proof Hin as Hpass.
  apply dict_of_items_in, filter_In in Hpass. destruct Hpass as [_ Hpass].
  destruct (dict_of_items_last _ _ _ Hin) as (b & a & Hsplit & Hlast).
  destruct (filter_split _ _ _ _ _ Hsplit) as (b' & a' & -> & Ha).
  exists b', a'. split; [reflexivity |].
  intros Hk. apply Hlast. rewrite <- Ha.
  apply in_map_iff in Hk. destruct Hk as ([k' v'] & Hfst & Hin').
  cbn [fst] in Hfst. subst k'.
  apply in_map_iff. exists (k, v'). split; [reflexivity |].
  apply filter_In. split; [exact Hin' | exact Hpass].
Qed.

(** The outbound call carries the request's method, query parameters and
    body bytes. Every header it carries is not named [host] in any letter
    case and is the last header the request gives under its name (an
    earlier value of a repeated name is dropped by the dict comprehension);
    every request header name other than [host] occurs among the forwarded
    headers; and when the request's header names are distinct the forwarded
    headers are exactly the request's without [host]. *)
Theorem forwarded_call_frame (base path : string) (request : Request) :
  let call := forwarded base path request in
  out_method call = method request /\
  out_params call = query_params request /\
  out_content call = body request /\
  (forall k v, In (k, v) (out_headers call) ->
     lower k <> "host" /\
     exists before after,
       headers request = before ++ (k, v) :: after /\ ~ In k (map fst after)) /\
  (forall k v, In (k, v) (headers request) -> lower k <> "host" ->
     In k (map fst (out_headers call))) /\
  (NoDup (map fst (headers request)) ->
     out_headers call = filter forwardable (headers request)).
Proof.
  cbv zeta. cbn [forwarded out_method out_params out_content out_headers].
  change (fun kv : string * string => negb (String.eqb (lower (fst kv)) "host"))
    with forwardable.
  split; [reflexivity | split; [reflexivity | split; [reflexivity | split; [| split]]]].
  - intros k v Hin. split.
    + apply dict_of_items_in, filter_In in Hin. destruct Hin as [_ Hk].
      unfold forwardable in Hk. cbn [fst] in Hk.
      apply Bool.negb_true_iff, String.eqb_neq in Hk. exact Hk.
    + apply forwarded_header_last. exact Hin.
  - intros k v Hin Hk. apply dict_of_items_keys, in_map_iff.
    exists (k, v). split; [reflexivity |].
    apply filter_In. split; [exact Hin |].
    unfold forwardable. cbn [fst]. apply Bool.negb_true_iff, String.eqb_neq. exact Hk.
  - intros Hnd. apply dict_of_items_unique, filter_keys_nodup. exact Hnd.
Qed.

Lemma forwarded_call_frame_witness :
  out_headers
    (forwarded "http://real-ollama:11434" "api/tags"
       {| method := "GET"; headers := [("Host", "proxy"); ("accept", "*/*")];
          query_params := []; body := "" |})
  = [("accept", "*/*")].
Proof.
  refine (proj2 (proj2 (proj2 (proj2 (proj2
            (forwarded_call_frame "http://real-ollama:11434" "api/tags"
               {| method := "GET"; headers := [("Host", "proxy"); ("accept", "*/*")];
                  query_params := []; body := "" |}))))) _).
  repeat constructor; simpl; intuition discriminate.
Defined.


(** Leading slashes of the requested path are dropped before it is appended
    to the backend's base address: the target of [n] slashes followed by a
    path [p] that starts with none is [base/p]. *)
Theorem forwarded_url (base p : string) (n : nat) (request : Request) :
  prefix "/" p = false ->
  out_url (forwarded base (String.concat "" (repeat "/" n) ++ p)%string request)
  = (base ++ "/" ++ p)%string.
Proof.
  intros Hp. cbn [forwarded out_url]. do 2 f_equal.
  induction n as [| n IH]; cbn [repeat String.concat].
  - destruct p as [| c p']; [reflexivity |]. cbn [String.append lstrip_char].
    simpl in Hp. destruct (Ascii.eqb "/"%char c) eqn:E; [| reflexivity].
    apply Ascii.eqb_eq in E. subst c. simpl in Hp.
    destruct p'; discriminate Hp.
  - destruct n as [| n'].
    + cbn [repeat String.concat] in *. simpl. exact IH.
    + cbn [repeat] in *. cbn [String.concat] in *. simpl. simpl in IH. exact IH.
Qed.

Lemma forwarded_url_witness :
  out_url (forwarded "http://real-ollama:11434" "//api/tags" (post ""))
  = "http://real-ollama:11434/api/tags".
Proof.
  apply (forwarded_url "http://real-ollama:11434" "api/tags" 2 (post "")).
  reflexivity.
Defined.

(** ** The blob parser *)

Section BlobParser.

Variable json_loads : string -> option value.

Lemma safe_loads_truthy (text : string) (v : value) :
  _safe_json_loads json_loads text = v -> truthy v = true -> json_loads text = Some v.
Proof.
  unfold _safe_json_loads. destruct (json_loads text) as [w |]; intros <- H.
  - reflexivity.
  - discriminate H.
Qed.

Lemma last_json_scan_skips (prefix : string) (skipped rest : list string) :
  Forall (fun l => truthy (_safe_json_loads json_loads (strip (candidate_of prefix l))) = false)
         skipped ->
  last_json_scan json_loads prefix (skipped ++ rest) = last_json_scan json_loads prefix rest.
Proof.
  induction 1 as [| l skipped Hl _ IH]; [reflexivity |].
  cbn [app last_json_scan]. rewrite Hl. exact IH.
Qed.

Lemma last_json_scan_result (prefix : string) (lines : list string) :
  let r := last_json_scan json_loads prefix lines in
  r = VDict [] \/
  (truthy r = true /\
   exists ln, In ln lines /\ json_loads (strip (candidate_of prefix ln)) = Some r).
Proof.
  induction lines as [| l lines IH]; cbn [last_json_scan]; [left; reflexivity |].
  destruct (truthy (_safe_json_loads json_loads (strip (candidate_of prefix l)))) eqn:Ht.
  - right. split; [exact Ht |]. exists l. split; [left; reflexivity |].
    apply safe_loads_truthy; [reflexivity | exact Ht].
  - destruct IH as [IH | [IHt [ln [Hin Hln]]]]; [left; exact IH |].
    right. split; [exact IHt |]. exists ln. split; [right; exact Hin | exact Hln].
Qed.

Lemma parser_scans (blob prefix : string) :
  blob <> "" ->
  _extract_last_json_from_blob json_loads blob prefix
  = last_json_scan json_loads prefix (List.rev (scanned_lines blob)).
Proof.
  intros Hb. unfold _extract_last_json_from_blob.
  destruct blob; [contradiction Hb; reflexivity | reflexivity].
Qed.

Lemma last_json_scan_latest
  (prefix : string) (earlier later : list string) (ln : string) (v : value) :
  json_loads (strip (candidate_of prefix ln)) = Some v ->
  truthy v = true ->
  Forall (fun l => truthy (_safe_json_loads json_loads (strip (candidate_of prefix l))) = false)
         later ->
  last_json_scan json_loads prefix (List.rev (earlier ++ ln :: later)) = v.
Proof.
  intros Hln Hv Hlater. rewrite rev_app_distr. cbn [List.rev]. rewrite <- app_assoc.
  rewrite last_json_scan_skips by (apply Forall_rev; exact Hlater).
  cbn [app last_json_scan]. unfold _safe_json_loads. rewrite Hln, Hv. reflexivity.
Qed.

(** The latest line wins: when a scanned line decodes to a truthy value and
    no later line does, the parser returns that value. *)
Theorem parse_last_json_latest_wins
  (blob prefix : string) (earlier later : list string) (ln : string) (v : value) :
  blob <> "" ->
  scanned_lines blob = earlier ++ ln :: later ->
  json_loads (strip (candidate_of prefix ln)) = Some v ->
  truthy v = true ->
  Forall (fun l => truthy (_safe_json_loads json_loads (strip (candidate_of prefix l))) = false)
         later ->
  _extract_last_json_from_blob json_loads blob prefix = v.
Proof.
  intros Hb Hlines Hln Hv Hlater.
  rewrite (parser_scans blob prefix Hb), Hlines.
  apply last_json_scan_latest; assumption.
Qed.

(** The parser returns either the empty mapping or the truthy decode of one
    of the scanned lines: a falsy decode ([null], [0], [false], an empty
    string or list) and a failed decode are never returned. *)
Theorem parse_last_json_result (blob prefix : string) :
  let r := _extract_last_json_from_blob json_loads blob prefix in
  r = VDict [] \/
  (truthy r = true /\
   exists ln, In ln (scanned_lines blob) /\
              json_loads (strip (candidate_of prefix ln)) = Some r).
Proof.
  cbv zeta. destruct blob as [| c blob'] eqn:Eb; [left; reflexivity |].
  rewrite parser_scans by discriminate.
  destruct (last_json_scan_result prefix (List.rev (scanned_lines (String c blob'))))
    as [H | [Ht [ln [Hin Hln]]]]; [left; exact H |].
  right. split; [exact Ht |]. exists ln. split; [| exact Hln].
  apply in_rev. exact Hin.
Qed.

(** A prefix that occurs in none of the scanned lines is as good as none. *)
Lemma parse_last_json_prefix_absent (blob prefix : string) :
  Forall (fun l => contains prefix l = false) (scanned_lines blob) ->
  _extract_last_json_from_blob json_loads blob prefix
  = _extract_last_json_from_blob json_loads blob "".
Proof.
  intros H. destruct blob as [| c blob'] eqn:Eb; [reflexivity |].
  rewrite !parser_scans by discriminate.
  apply Forall_rev in H. revert H.
  generalize (List.rev (scanned_lines (String c blob'))). intros lines.
  induction 1 as [| l lines Hl _ IH]; [reflexivity |].
  cbn [last_json_scan]. rewrite IH.
  assert (E : candidate_of prefix l = l).
  { unfold candidate_of. rewrite Hl, Bool.andb_false_r. reflexivity. }
  rewrite E, candidate_of_empty_prefix. reflexivity.
Qed.

End BlobParser.

Lemma parse_last_json_latest_wins_witness :
  _extract_last_json_from_blob Json.loads
    ("junk" ++ newline ++ dq "{'a':1}" ++ newline ++ "{bad")%string ""
  = VDict [("a", VInt 1)].
Proof.
  apply (parse_last_json_latest_wins Json.loads _ _ ["junk"] ["{bad"] (dq "{'a':1}")).
  - discriminate.
  - reflexivity.
  - reflexivity.
  - reflexivity.
  - repeat constructor.
Defined.

(** ** The stream aggregator on mixed streams *)

Lemma concat_empty_cons (c : string) (cs : list string) :
  String.concat "" (c :: cs) = (c ++ String.concat "" cs)%string.
Proof.
  destruct cs as [| c' cs]; cbn [String.concat].
  - induction c as [| a c IH]; cbn [String.append]; [reflexivity | rewrite <- IH; reflexivity].
  - reflexivity.
Qed.

Lemma concat_empty_app (xs ys : list string) :
  String.concat "" (xs ++ ys) = (String.concat "" xs ++ String.concat "" ys)%string.
Proof.
  induction xs as [| x xs IH]; [reflexivity |].
  cbn [app]. rewrite !concat_empty_cons, IH.
  clear IH. induction x as [| a x IHx]; cbn [String.append]; [reflexivity |].
  rewrite IHx. reflexivity.
Qed.

Section MixedStreams.

Variable json_loads : string -> option value.

Lemma aggregate_native_line (obj : value) (c : string) (ln : string)
  (rest : list string) (pieces : list value) :
  json_loads ln = Some obj -> native_shape obj c ->
  aggregate_lines json_loads "" (ln :: rest) pieces
  = aggregate_lines json_loads "" rest (pieces ++ [VStr c]).
Proof.
  intros Hln (d & m & -> & Hm & Hr & Hc).
  cbn [aggregate_lines]. rewrite candidate_of_empty_prefix.
  unfold _safe_json_loads. rewrite Hln, (lookup_some_truthy _ _ _ Hm).
  cbn [negb]. rewrite py_get_dict, Hm. cbn [bind].
  rewrite py_get_dict, Hr. cbn [bind eq_str]. rewrite String.eqb_refl.
  rewrite py_get_dict, Hc. reflexivity.
Qed.

Lemma aggregate_delta_line (obj : value) (c : string) (ln : string)
  (rest : list string) (pieces : list value) :
  json_loads ln = Some obj -> delta_shape obj c ->
  aggregate_lines json_loads "" (ln :: rest) pieces
  = aggregate_lines json_loads "" rest
      (if is_empty c then pieces else pieces ++ [VStr c]).
Proof.
  intros Hln (d & first & others & dl & -> & Hm & Hch & Hd & Hc).
  cbn [aggregate_lines]. rewrite candidate_of_empty_prefix.
  unfold _safe_json_loads. rewrite Hln, (lookup_some_truthy _ _ _ Hch).
  cbn [negb]. rewrite py_get_dict, Hm. cbn [bind].
  change (py_get (VDict []) "role" VNone) with (@Ok value VNone). cbn [bind eq_str].
  rewrite py_get_dict, Hch. cbn [bind py_item0].
  rewrite py_get_dict, Hd. cbn [bind].
  rewrite py_get_dict, Hc. cbn [bind truthy].
  destruct (is_empty c); reflexivity.
Qed.

Lemma aggregate_silent_line (obj : value) (ln : string)
  (rest : list string) (pieces : list value) :
  json_loads ln = Some obj -> silent_shape obj ->
  aggregate_lines json_loads "" (ln :: rest) pieces
  = aggregate_lines json_loads "" rest pieces.
Proof.
  intros Hln (d & -> & Hch & Hmsg).
  cbn [aggregate_lines]. rewrite candidate_of_empty_prefix.
  unfold _safe_json_loads. rewrite Hln.
  destruct (truthy (VDict d)); cbn [negb]; [| reflexivity].
  rewrite !py_get_dict, Hch. cbn [bind].
  destruct Hmsg as [Hm | (m & Hm & Hrole)]; rewrite Hm.
  - reflexivity.
  - rewrite py_get_dict. cbn [bind]. unfold or_none in Hrole. rewrite Hrole.
    reflexivity.
Qed.

Lemma aggregate_skipped_line (ln : string) (rest : list string) (pieces : list value) :
  truthy (_safe_json_loads json_loads ln) = false ->
  aggregate_lines json_loads "" (ln :: rest) pieces
  = aggregate_lines json_loads "" rest pieces.
Proof.
  intros H. cbn [aggregate_lines]. rewrite candidate_of_empty_prefix, H. reflexivity.
Qed.

Lemma aggregate_lines_mixed (lns cs : list string) :
  Forall2 (line_adds json_loads) lns cs ->
  forall done : list string,
  exists more : list string,
    aggregate_lines json_loads "" lns (map VStr done) = Ok (map VStr (done ++ more)) /\
    String.concat "" more = String.concat "" cs.
Proof.
  induction 1 as [| ln c lns cs Hln _ IH]; intros done.
  - exists []. rewrite app_nil_r. split; reflexivity.
  - destruct Hln as [[Hnone ->] | [(v & Hv & Hf & ->) | [(v & Hv & Hs) |
                     [(v & Hv & Hs) | (v & Hv & Hs & ->)]]]].
    + rewrite aggregate_skipped_line
        by (unfold _safe_json_loads; rewrite Hnone; reflexivity).
      destruct (IH done) as (more & Hagg & Hcat). exists more.
      split; [exact Hagg | rewrite concat_empty_cons; exact Hcat].
    + rewrite aggregate_skipped_line
        by (unfold _safe_json_loads; rewrite Hv; exact Hf).
      destruct (IH done) as (more & Hagg & Hcat). exists more.
      split; [exact Hagg | rewrite concat_empty_cons; exact Hcat].
    + rewrite (aggregate_native_line v c ln lns _ Hv Hs).
      change (map VStr done ++ [VStr c]) with (map VStr done ++ map VStr [c]).
      rewrite <- map_app.
      destruct (IH (done ++ [c])) as (more & Hagg & Hcat). exists (c :: more).
      split.
      * rewrite Hagg, <- app_assoc. reflexivity.
      * rewrite !concat_empty_cons, Hcat. reflexivity.
    + rewrite (aggregate_delta_line v c ln lns _ Hv Hs).
      destruct c as [| a c']; cbn [is_empty].
      * destruct (IH done) as (more & Hagg & Hcat). exists more.
        split; [exact Hagg | rewrite concat_empty_cons; exact Hcat].
      * change (map VStr done ++ [VStr (String a c')])
          with (map VStr done ++ map VStr [String a c']).
        rewrite <- map_app.
        destruct (IH (done ++ [String a c'])) as (more & Hagg & Hcat).
        exists (String a c' :: more). split.
        -- rewrite Hagg, <- app_assoc. reflexivity.
        -- rewrite !concat_empty_cons, Hcat. reflexivity.
    + rewrite (aggregate_silent_line v ln lns _ Hv Hs).
      destruct (IH done) as (more & Hagg & Hcat). exists more.
      split; [exact Hagg | rewrite concat_empty_cons; exact Hcat].
Qed.

(** On a stream whose lines are events of either dialect, undecodable text,
    or falsy JSON, the aggregator returns the contents of the events joined
    in line order; the other lines add nothing. The events may carry any
    further keys. *)
Theorem aggregate_mixed_stream (blob : string) (cs : list string) :
  Forall2 (line_adds json_loads) (nonblank_lines blob) cs ->
  _aggregate_completion_from_stream json_loads blob "" = Ok (String.concat "" cs).
Proof.
  intros H. unfold _aggregate_completion_from_stream.
  destruct (is_empty blob) eqn:Hblob.
  - destruct blob; [| discriminate Hblob]. inversion H. reflexivity.
  - destruct (aggregate_lines_mixed _ _ H []) as (more & Hagg & Hcat).
    cbn [map] in Hagg. rewrite Hagg. cbn [bind app].
    rewrite py_join_strs, Hcat. reflexivity.
Qed.

End MixedStreams.

Lemma aggregate_mixed_stream_witness :
  _aggregate_completion_from_stream Json.loads
    (dq "{'model':'m','choices':[{'index':0,'delta':{'content':'Hel'}}]}" ++ newline ++
     "data: [DONE]" ++ newline ++
     dq "{'model':'m','message':{'role':'assistant','content':'lo'},'done':false}" ++ newline ++
     "null")%string ""
  = Ok "Hello".
Proof.
  apply (aggregate_mixed_stream Json.loads _ ["Hel"; ""; "lo"; ""]).
  match goal with
  | |- Forall2 _ ?l _ => let l' := eval vm_compute in l in change l with l'
  end.
  constructor; [| constructor; [| constructor; [| constructor; [| constructor]]]].
  - right. right. right. left. eexists. split; [vm_compute; reflexivity |].
    exists [("model", VStr "m");
            ("choices", VList [VDict [("index", VInt 0);
                                      ("delta", VDict [("content", VStr "Hel")])]])].
    do 3 eexists.
    split; [reflexivity |]. split; [reflexivity |]. split; [reflexivity |].
    split; reflexivity.
  - left. split; reflexivity.
  - right. right. left. eexists. split; [vm_compute; reflexivity |].
    do 2 eexists. split; [reflexivity |]. split; [reflexivity |]. split; reflexivity.
  - right. left. exists VNone. split; [reflexivity |]. split; reflexivity.
Defined.

(** ** The fact extractor *)

(** What [first_completion_text] returns when [choices[0]] is a mapping: the
    content of its [message] when that is a mapping, the empty string when
    it has no [message], and its [text] only when [message] is present and
    is not a mapping. *)
Theorem first_completion_text_value (data : value) (c0 : list (string * value)) :
  truthy data = true ->
  first_choice data = Ok (VDict c0) ->
  _extract_first_completion_text data =
  Ok (match lookup "message" c0 with
      | None => VStr ""
      | Some (VDict m) => match lookup "content" m with Some v => v | None => VStr "" end
      | Some _ => match lookup "text" c0 with Some v => v | None => VStr "" end
      end).
Proof.
  intros Ht Hc. unfold _extract_first_completion_text.
  rewrite Ht, Hc. cbn [negb bind]. rewrite !py_get_dict. cbn [bind].
  destruct (lookup "message" c0) as [msg |]; [| reflexivity].
  destruct msg; try reflexivity.
  rewrite py_get_dict. reflexivity.
Qed.

Lemma first_completion_text_value_witness :
  _extract_first_completion_text
    (VDict [("choices", VList [VDict [("message", VNone); ("text", VStr "t")]])])
  = Ok (VStr "t").
Proof.
  apply (first_completion_text_value _ [("message", VNone); ("text", VStr "t")]);
    reflexivity.
Defined.

(** [first_completion_text] returns exactly when the payload is falsy or
    [choices[0]] can be read and is a mapping; in every other case it
    raises, the [except] branch included. *)
Theorem first_completion_text_returns_iff (data : value) :
  returns (_extract_first_completion_text data) <->
  truthy data = false \/ exists c0, first_choice data = Ok (VDict c0).
Proof.
  unfold returns, _extract_first_completion_text.
  destruct (truthy data) eqn:Ht; cbn [negb].
  - split.
    + intros [a H]. right.
      destruct (first_choice data) as [c0 | e] eqn:Hc; [| discriminate H].
      destruct c0; try discriminate H. eexists. reflexivity.
    + intros [H | [c0 Hc]]; [discriminate H |].
      rewrite Hc. cbn [bind]. rewrite !py_get_dict. cbn [bind try_except].
      destruct (lookup "message" c0) as [msg |].
      * destruct msg; cbn; try (eexists; reflexivity).
        destruct (lookup "content" items); eexists; reflexivity.
      * cbn. eexists. reflexivity.
  - split; [intros _; left; reflexivity | intros _; eexists; reflexivity].
Qed.

(** A non-empty [usage] mapping is read directly: the three facts are what
    it holds under [prompt_tokens], [completion_tokens] and [total_tokens]
    ([None] for a missing key), and the native-dialect fields of the payload
    are not consulted. *)
Theorem usage_mapping_read_directly (d u : list (string * value)) :
  lookup "usage" d = Some (VDict u) ->
  u <> [] ->
  _extract_usage_from_data (VDict d) =
  Ok (or_none (lookup "prompt_tokens" u),
      or_none (lookup "completion_tokens" u),
      or_none (lookup "total_tokens" u)).
Proof.
  intros Hd Hu. unfold _extract_usage_from_data.
  rewrite (lookup_some_truthy _ _ _ Hd). cbn [negb].
  rewrite py_get_dict, Hd. cbn [bind].
  destruct u as [| kv u']; [contradiction Hu; reflexivity |].
  rewrite truthy_dict_cons, !py_get_dict. reflexivity.
Qed.

Lemma usage_mapping_read_directly_witness :
  _extract_usage_from_data
    (VDict [("usage", VDict [("prompt_tokens", VInt 3); ("completion_tokens", VInt 1)]);
            ("eval_count", VInt 9)])
  = Ok (VInt 3, VInt 1, VNone).
Proof.
  apply (usage_mapping_read_directly _ [("prompt_tokens", VInt 3); ("completion_tokens", VInt 1)]);
    [reflexivity | discriminate].
Defined.

(** In the native dialect two integer counts give their sum as the total. *)
Theorem native_counts_summed (d : list (string * value)) (p c : Z) :
  without_usage d ->
  lookup "prompt_eval_count" d = Some (VInt p) ->
  lookup "eval_count" d = Some (VInt c) ->
  _extract_usage_from_data (VDict d) = Ok (VInt p, VInt c, VInt (p + c)).
Proof.
  intros Hu Hp Hc. rewrite (usage_of_mapping_native d Hu), Hp, Hc.
  destruct d; [discriminate Hp | reflexivity].
Qed.

Lemma native_counts_summed_witness :
  _extract_usage_from_data
    (VDict [("done", VBool true); ("prompt_eval_count", VInt 26); ("eval_count", VInt 298)])
  = Ok (VInt 26, VInt 298, VInt 324).
Proof.
  apply (native_counts_summed
           [("done", VBool true); ("prompt_eval_count", VInt 26); ("eval_count", VInt 298)]);
    [exact I | reflexivity | reflexivity].
Defined.

(** In the native dialect a single count is passed on and no total is made
    up: when one of the two fields is missing the total is absent. *)
Theorem native_single_count_has_no_total (d : list (string * value)) :
  without_usage d ->
  lookup "prompt_eval_count" d = None \/ lookup "eval_count" d = None ->
  _extract_usage_from_data (VDict d) =
  Ok (or_none (lookup "prompt_eval_count" d), or_none (lookup "eval_count" d), VNone).
Proof.
  intros Hu H. rewrite (usage_of_mapping_native d Hu).
  destruct d as [| kv d']; [reflexivity |].
  destruct (lookup "prompt_eval_count" (kv :: d')) as [pv |];
    destruct (lookup "eval_count" (kv :: d')) as [cv |]; cbn [or_none].
  - destruct H as [H | H]; discriminate H.
  - cbn. rewrite Bool.andb_false_r. reflexivity.
  - reflexivity.
  - reflexivity.
Qed.

Lemma native_single_count_has_no_total_witness :
  _extract_usage_from_data (VDict [("eval_count", VInt 5)]) = Ok (VNone, VInt 5, VNone).
Proof.
  apply (native_single_count_has_no_total [("eval_count", VInt 5)]);
    [exact I | left; reflexivity].
Defined.

(** ** Prompts read from the message list *)








(** ** The chat-completions adapter *)

Lemma lookup_remove_key (k k' : string) (items : list (string * value)) :
  lookup k (remove_key k' items) = if String.eqb k k' then None else lookup k items.
Proof.
  induction items as [| [k0 v0] items IH]; cbn [remove_key lookup].
  - destruct (String.eqb k k'); reflexivity.
  - destruct (String.eqb k' k0) eqn:E0.
    + apply String.eqb_eq in E0. subst k0. rewrite IH.
      destruct (String.eqb k k'); reflexivity.
    + cbn [lookup]. rewrite IH.
      destruct (String.eqb k k') eqn:E; [| reflexivity].
      apply String.eqb_eq in E. subst k'. rewrite E0. reflexivity.
Qed.

Lemma py_pop_dict (items : list (string * value)) (k : string) (default : value) :
  py_pop (VDict items) k default
  = Ok (match lookup k items with Some v => v | None => default end,
        VDict (remove_key k items)).
Proof.
  unfold py_pop. destruct (lookup k items) eqn:E; [reflexivity |].
  do 3 f_equal. clear default.
  induction items as [| [k0 v0] items IH]; [reflexivity |].
  cbn [lookup remove_key] in *. destruct (String.eqb k k0); [discriminate E |].
  f_equal. apply IH. exact E.
Qed.

(** Whenever the adapter returns, its answer is what the structured client
    gave for a payload that has neither [options] nor [format] and holds
    every other field of the request unchanged. *)
Theorem chat_completions_client_payload
  (json_dumps : value -> string) (create : value -> value)
  (body : value) (sp : span) (data : value) :
  chat_completions json_dumps create body = Ok (sp, data) ->
  exists items payload,
    body = VDict items /\
    data = create (VDict payload) /\
    lookup "options" payload = None /\
    lookup "format" payload = None /\
    (forall k, k <> "options" -> k <> "format" -> lookup k payload = lookup k items).
Proof.
  unfold chat_completions. intros H.
  apply bind_ok in H. destruct H as [popped [Hpop H]].
  destruct body; try discriminate Hpop.
  rewrite py_pop_dict in Hpop. injection Hpop as <-. cbn [fst snd] in H.
  apply bind_ok in H. destruct H as [dify [_ H]].
  rewrite py_pop_dict in H. cbn [bind snd] in H.
  repeat match type of H with
         | bind ?c _ = Ok _ => apply bind_ok in H; destruct H as [? [_ H]]
         end.
  cbv zeta in H.
  repeat match type of H with
         | bind ?c _ = Ok _ => apply bind_ok in H; destruct H as [? [_ H]]
         end.
  injection H as _ <-.
  exists items, (remove_key "format" (remove_key "options" items)).
  split; [reflexivity | split; [reflexivity | split; [| split]]].
  - rewrite !lookup_remove_key. reflexivity.
  - rewrite lookup_remove_key. reflexivity.
  - intros k Ho Hf. rewrite !lookup_remove_key.
    apply String.eqb_neq in Ho, Hf. rewrite Ho, Hf. reflexivity.
Qed.

Lemma chat_completions_client_payload_witness :
  exists items payload,
    VDict [("model", VStr "m"); ("options", VDict [("temperature", VInt 1)]);
           ("format", VStr "json"); ("messages", VList [])] = VDict items /\
    VDict [("model", VStr "m"); ("messages", VList [])] = VDict payload /\
    lookup "options" payload = None /\
    lookup "format" payload = None /\
    (forall k, k <> "options" -> k <> "format" -> lookup k payload = lookup k items).
Proof.
  refine (chat_completions_client_payload (fun _ => "") (fun payload => payload)
            (VDict [("model", VStr "m"); ("options", VDict [("temperature", VInt 1)]);
                    ("format", VStr "json"); ("messages", VList [])])
            _ (VDict [("model", VStr "m"); ("messages", VList [])]) _).
  reflexivity.
Defined.

(** ** Lines and prefixes as parts of the blob *)

Lemma append_assoc (a b c : string) : ((a ++ b) ++ c = a ++ (b ++ c))%string.
Proof. induction a as [| x a IH]; cbn [String.append]; [reflexivity | rewrite IH; reflexivity]. Qed.

Lemma append_empty_r (a : string) : (a ++ "" = a)%string.
Proof. induction a as [| x a IH]; cbn [String.append]; [reflexivity | rewrite IH; reflexivity]. Qed.

Lemma prefix_append (t b : string) : prefix t (t ++ b) = true.
Proof.
  induction t as [| x t IH]; cbn [String.append prefix].
  - destruct b; reflexivity.
  - destruct (ascii_dec x x) as [_ | N]; [exact IH | contradiction N; reflexivity].
Qed.

Lemma prefix_split (t s : string) : prefix t s = true -> exists b, s = (t ++ b)%string.
Proof.
  revert s. induction t as [| x t IH]; intros s H.
  - exists s. reflexivity.
  - destruct s as [| y s]; cbn [prefix] in H; [discriminate H |].
    destruct (ascii_dec x y) as [-> | _]; [| discriminate H].
    destruct (IH s H) as [b ->]. exists b. reflexivity.
Qed.

Lemma occurs_in_refl (s : string) : occurs_in s s.
Proof. exists "", "". cbn [String.append]. rewrite append_empty_r. reflexivity. Qed.

Lemma occurs_in_trans (t l s : string) : occurs_in t l -> occurs_in l s -> occurs_in t s.
Proof.
  intros (a & b & ->) (a' & b' & ->).
  exists (a' ++ a)%string, (b ++ b')%string.
  rewrite !append_assoc. reflexivity.
Qed.

Lemma occurs_in_tail (t : string) (c : ascii) (s : string) :
  occurs_in t s -> occurs_in t (String c s).
Proof. intros (a & b & ->). exists (String c a), b. reflexivity. Qed.

Lemma contains_occurs (t s : string) : contains t s = true -> occurs_in t s.
Proof.
  induction s as [| c s IH]; cbn [contains]; intros H.
  - destruct (prefix t "") eqn:P; [| discriminate H].
    destruct (prefix_split _ _ P) as [b ->]. exists "", b. reflexivity.
  - destruct (prefix t (String c s)) eqn:P.
    + destruct (prefix_split _ _ P) as [b ->]. exists "", b. reflexivity.
    + apply occurs_in_tail, IH. exact H.
Qed.

Lemma occurs_contains (t s : string) : occurs_in t s -> contains t s = true.
Proof.
  intros (a & b & ->). induction a as [| c a IH]; cbn [String.append].
  - destruct (t ++ b)%string eqn:E; cbn [contains]; rewrite <- E, prefix_append; reflexivity.
  - cbn [contains]. rewrite IH. destruct (prefix t (String c (a ++ t ++ b))); reflexivity.
Qed.

Lemma rev_onto_append (s acc : string) : rev_onto s acc = (rev s ++ acc)%string.
Proof.
  unfold rev. revert acc. induction s as [| c s IH]; intros acc; cbn [rev_onto].
  - reflexivity.
  - rewrite (IH (String c acc)), (IH (String c "")), append_assoc. reflexivity.
Qed.

Lemma rev_append (a b : string) : rev (a ++ b) = (rev b ++ rev a)%string.
Proof.
  induction a as [| c a IH]; cbn [String.append].
  - rewrite append_empty_r. reflexivity.
  - unfold rev at 1 3. cbn [rev_onto]. rewrite !rev_onto_append, IH, append_assoc.
    reflexivity.
Qed.

Lemma rev_involutive (s : string) : rev (rev s) = s.
Proof.
  induction s as [| c s IH]; [reflexivity |].
  unfold rev at 2. cbn [rev_onto]. rewrite rev_onto_append, rev_append, IH. reflexivity.
Qed.

Lemma lstrip_from_suffix (table : list string) (s : string) :
  forall skip, exists a, s = (a ++ lstrip_from table skip s)%string.
Proof.
  induction s as [| c s IH]; intros skip; cbn [lstrip_from].
  - exists "". reflexivity.
  - destruct skip as [| k].
    + destruct (match_len table (String c s)) as [| k].
      * exists "". reflexivity.
      * destruct (IH k) as [a Ha]. exists (String c a). cbn [String.append].
        rewrite <- Ha. reflexivity.
    + destruct (IH k) as [a Ha]. exists (String c a). cbn [String.append].
      rewrite <- Ha. reflexivity.
Qed.

Lemma strip_occurs (s : string) : occurs_in (strip s) s.
Proof.
  unfold strip, rstrip, lstrip.
  destruct (lstrip_from_suffix whitespace s O) as [a Ha].
  set (t := lstrip_from whitespace O s) in *.
  destruct (lstrip_from_suffix whitespace_rev (rev t) O) as [b Hb].
  set (u := lstrip_from whitespace_rev O (rev t)) in *.
  exists a, (rev b). rewrite Ha at 1. f_equal.
  rewrite <- (rev_involutive t), Hb, rev_append. reflexivity.
Qed.

Lemma splitlines_from_parts (s : string) :
  forall skip cur l,
    In l (splitlines_from s skip cur) ->
    occurs_in l s \/
    exists a, l = (cur ++ a)%string /\
              (skip = O -> exists b, s = (a ++ b)%string) /\
              occurs_in a s.
Proof.
  induction s as [| c s IH]; intros skip cur l Hin; cbn [splitlines_from] in Hin.
  - right. exists "". destruct (is_empty cur); [destruct Hin |].
    destruct Hin as [<- | []]. rewrite append_empty_r.
    split; [reflexivity | split; [intros _; exists ""; reflexivity | apply occurs_in_refl]].
  - destruct skip as [| k].
    + destruct (match_len line_boundaries (String c s)) as [| k].
      * destruct (IH _ _ _ Hin) as [H | (a & -> & Hpre & _)].
        -- left. apply occurs_in_tail. exact H.
        -- right. exists (String c a). rewrite append_assoc. cbn [String.append].
           destruct (Hpre eq_refl) as [b ->].
           split; [reflexivity | split].
           ++ intros _. exists b. reflexivity.
           ++ exists "", b. reflexivity.
      * destruct Hin as [<- | Hin].
        -- right. exists "". rewrite append_empty_r.
           split; [reflexivity | split].
           ++ intros _. exists (String c s). reflexivity.
           ++ exists "", (String c s). reflexivity.
        -- left. apply occurs_in_tail.
           destruct (IH _ _ _ Hin) as [H | (a & -> & _ & H)]; exact H.
    + destruct (IH _ _ _ Hin) as [H | (a & -> & _ & H)].
      * left. apply occurs_in_tail. exact H.
      * right. exists a. split; [reflexivity | split].
        -- intros E. discriminate E.
        -- apply occurs_in_tail. exact H.
Qed.

Lemma splitlines_occurs (s l : string) : In l (splitlines s) -> occurs_in l s.
Proof.
  intros Hin. destruct (splitlines_from_parts s O "" l Hin) as [H | (a & -> & _ & H)]; exact H.
Qed.

Lemma nonblank_lines_occur (blob l : string) : In l (nonblank_lines blob) -> occurs_in l blob.
Proof.
  unfold nonblank_lines. intros Hin. apply in_map_iff in Hin.
  destruct Hin as (l0 & <- & Hl0). apply filter_In in Hl0. destruct Hl0 as [Hl0 _].
  apply (occurs_in_trans _ l0); [apply strip_occurs | apply splitlines_occurs; exact Hl0].
Qed.

Lemma scanned_lines_occur (blob l : string) : In l (scanned_lines blob) -> occurs_in l blob.
Proof.
  unfold scanned_lines. destruct (nonblank_lines blob) as [| x xs] eqn:E.
  - intros [<- | []]. apply occurs_in_refl.
  - rewrite <- E. apply nonblank_lines_occur.
Qed.

Lemma absent_from_part (prefix blob l : string) :
  contains prefix blob = false -> occurs_in l blob -> contains prefix l = false.
Proof.
  intros Hb Hl. destruct (contains prefix l) eqn:E; [| reflexivity].
  rewrite (occurs_contains prefix blob) in Hb; [discriminate Hb |].
  apply (occurs_in_trans _ l); [apply contains_occurs; exact E | exact Hl].
Qed.

(** A delimiter prefix that does not occur in the blob changes nothing: the
    parser returns what it returns with the empty prefix. For the request
    body of the generic handler the prefix is the default [stringValue:]. *)
Theorem parse_last_json_marker_absent
  (json_loads : string -> option value) (blob prefix : string) :
  contains prefix blob = false ->
  _extract_last_json_from_blob json_loads blob prefix
  = _extract_last_json_from_blob json_loads blob "".
Proof.
  intros H. apply parse_last_json_prefix_absent, Forall_forall.
  intros l Hin. apply (absent_from_part prefix blob); [exact H |].
  apply scanned_lines_occur. exact Hin.
Qed.

Lemma parse_last_json_marker_absent_witness :
  proxy_request_data Json.loads (dq "{'model':'m2'}")
  = _extract_last_json_from_blob Json.loads (dq "{'model':'m2'}") "".
Proof.
  apply (parse_last_json_marker_absent Json.loads (dq "{'model':'m2'}") default_prefix).
  reflexivity.
Defined.

Lemma aggregate_lines_prefix_absent
  (json_loads : string -> option value) (prefix : string) (lns : list string) :
  Forall (fun l => contains prefix l = false) lns ->
  forall pieces,
    aggregate_lines json_loads prefix lns pieces = aggregate_lines json_loads "" lns pieces.
Proof.
  induction 1 as [| l lns Hl _ IH]; intros pieces; [reflexivity |].
  cbn [aggregate_lines].
  assert (E : candidate_of prefix l = l).
  { unfold candidate_of. rewrite Hl, Bool.andb_false_r. reflexivity. }
  rewrite E, candidate_of_empty_prefix.
  destruct (negb (truthy (_safe_json_loads json_loads l))); [apply IH |].
  destruct (py_get (_safe_json_loads json_loads l) "message" (VDict [])) as [msg | e];
    cbn [bind]; [| reflexivity].
  destruct (py_get msg "role" VNone) as [role | e]; cbn [bind]; [| reflexivity].
  destruct (eq_str role "assistant").
  - destruct (py_get msg "content" (VStr "")); cbn [bind]; [apply IH | reflexivity].
  - destruct (py_get (_safe_json_loads json_loads l) "choices" (VList [VDict []]))
      as [choices | e]; cbn [bind]; [| reflexivity].
    destruct (py_item0 choices) as [first | e]; cbn [bind]; [| reflexivity].
    destruct (py_get first "delta" (VDict [])) as [delta | e]; cbn [bind]; [| reflexivity].
    destruct (py_get delta "content" VNone) as [c | e]; cbn [bind]; [| reflexivity].
    destruct (truthy c); apply IH.
Qed.

(** The same for the aggregator: a prefix that does not occur in the blob
    gives the result of the empty prefix, an exception included. *)
Theorem aggregate_marker_absent
  (json_loads : string -> option value) (blob prefix : string) :
  contains prefix blob = false ->
  _aggregate_completion_from_stream json_loads blob prefix
  = _aggregate_completion_from_stream json_loads blob "".
Proof.
  intros H. unfold _aggregate_completion_from_stream.
  rewrite aggregate_lines_prefix_absent; [reflexivity |].
  apply Forall_forall. intros l Hin.
  apply (absent_from_part prefix blob); [exact H |].
  apply nonblank_lines_occur. exact Hin.
Qed.

Lemma aggregate_marker_absent_witness :
  _aggregate_completion_from_stream Json.loads
    (dq "{'message':{'role':'assistant','content':'foo'}}") "data: "
  = _aggregate_completion_from_stream Json.loads
      (dq "{'message':{'role':'assistant','content':'foo'}}") "".
Proof.
  apply (aggregate_marker_absent Json.loads _ "data: "). reflexivity.
Defined.

(** ** The candidate text of a line *)

Lemma drop_append (t b : string) : drop (String.length t) (t ++ b) = b.
Proof. induction t as [| x t IH]; [destruct b; reflexivity | exact IH]. Qed.

Lemma split_once_from_first (sep s : string) :
  contains sep s = true ->
  forall acc,
  exists a b,
    s = (a ++ sep ++ b)%string /\
    split_once_from sep s acc = [(acc ++ a)%string; b] /\
    (forall a' b', s = (a' ++ sep ++ b')%string -> String.length a <= String.length a').
Proof.
  induction s as [| c s IH]; intros H acc.
  - cbn [contains] in H. destruct sep as [| x sep]; [| discriminate H].
    exists "", "". cbn [split_once_from prefix drop String.length].
    rewrite (append_empty_r acc).
    split; [reflexivity | split; [reflexivity | intros; apply Nat.le_0_l]].
  - cbn [contains] in H. cbn [split_once_from].
    destruct (prefix sep (String c s)) eqn:P.
    + destruct (prefix_split _ _ P) as [b Hb]. exists "", b.
      assert (D : drop (String.length sep) (String c s) = b)
        by (rewrite Hb; apply drop_append).
      rewrite D, (append_empty_r acc).
      split; [exact Hb | split; [reflexivity | intros; apply Nat.le_0_l]].
    + destruct (IH H (acc ++ String c "")%string) as (a & b & Hs & Hsplit & Hmin).
      exists (String c a), b. split; [cbn [String.append]; rewrite <- Hs; reflexivity |].
      split.
      * rewrite Hsplit, append_assoc. reflexivity.
      * intros a' b' E. destruct a' as [| x a'].
        -- cbn [String.append] in E. rewrite E, prefix_append in P. discriminate P.
        -- cbn [String.append] in E. injection E as _ E.
           cbn [String.length]. apply le_n_S, (Hmin a' b'). exact E.
Qed.

(** With a non-empty prefix that occurs in the line, the candidate is what
    follows the first occurrence of the prefix: the line is some text, the
    prefix and the candidate, and no occurrence of the prefix starts
    earlier. *)
Theorem candidate_follows_first_occurrence (prefix line : string) :
  prefix <> "" ->
  contains prefix line = true ->
  exists before,
    line = (before ++ prefix ++ candidate_of prefix line)%string /\
    (forall a b, line = (a ++ prefix ++ b)%string -> String.length before <= String.length a).
Proof.
  intros Hp Hc. unfold candidate_of. rewrite Hc.
  destruct prefix as [| x p]; [contradiction Hp; reflexivity |]. cbn [is_empty negb andb].
  destruct (split_once_from_first _ _ Hc "") as (a & b & Hs & Hsplit & Hmin).
  exists a. unfold split_once. rewrite Hsplit. cbn [last_item List.last].
  split; [exact Hs | exact Hmin].
Qed.

Lemma candidate_follows_first_occurrence_witness :
  exists before,
    "log stringValue:{} stringValue:x"
    = (before ++ "stringValue:" ++ candidate_of "stringValue:" "log stringValue:{} stringValue:x")%string /\
    (forall a b, "log stringValue:{} stringValue:x" = (a ++ "stringValue:" ++ b)%string ->
                 String.length before <= String.length a).
Proof.
  apply (candidate_follows_first_occurrence "stringValue:" "log stringValue:{} stringValue:x");
    [discriminate | reflexivity].
Defined.

(** ** What the generic handler records *)

Lemma decode_ascii (s : string) : is_ascii_text s -> Codec.decode s = s.
Proof.
  unfold is_ascii_text, Codec.decode.
  induction s as [| c s IH]; cbn [list_ascii_of_string]; intros H; [reflexivity |].
  inversion H as [| ? ? Hc Hs]; subst.
  cbn [Codec.decode_from Codec.utf8_part].
  apply Nat.ltb_lt in Hc. rewrite Hc. cbn [Nat.pred]. rewrite IH by exact Hs. reflexivity.
Qed.

Lemma lookup_app_found (k : string) (l l' : list (string * value)) (v : value) :
  lookup k l = Some v -> lookup k (l ++ l') = Some v.
Proof.
  induction l as [| [k0 v0] l IH]; cbn [lookup app]; [discriminate |].
  destruct (String.eqb k k0); [intros H; exact H | exact IH].
Qed.

Lemma attribute_kept_by_set (k k' : string) (sp : span) (v v' : value) :
  attribute k sp = Some v -> attribute k (set_attribute sp k' v') = Some v.
Proof. apply lookup_app_found. Qed.

Lemma attribute_kept_by_usage (k : string) (sp : span) (v : value)
  (usage : value * value * value) :
  attribute k sp = Some v -> attribute k (set_usage sp usage) = Some v.
Proof.
  intros H. destruct usage as [[p c] t]. unfold set_usage.
  destruct (is_none p), (is_none c), (is_none t);
    repeat apply attribute_kept_by_set; exact H.
Qed.

(** Whenever the generic handler returns, the span holds the target address,
    the request body and the backend's body as decoded text, and the
    completion text it derived from the backend's body. *)
Theorem dumb_proxy_records
  (json_loads : string -> option value) (base : string)
  (upstream : Outbound -> BackendResponse) (path : string) (request : Request)
  (sp : span) (r : Response) :
  dumb_proxy json_loads base upstream path request = Ok (sp, r) ->
  let resp_text := Codec.decode (content (upstream (forwarded base path request))) in
  attribute "http.target_url" sp = Some (VStr (base ++ "/" ++ lstrip_char "/"%char path)) /\
  attribute "proxy.request.body" sp = Some (VStr (Codec.decode (body request))) /\
  attribute "proxy.response.body" sp = Some (VStr resp_text) /\
  exists completion,
    proxy_completion_text json_loads resp_text = Ok completion /\
    attribute "gen_ai.completion" sp = Some completion.
Proof.
  unfold dumb_proxy. cbv zeta. intros H.
  apply bind_ok in H. destruct H as [req_model [_ H]].
  apply bind_ok in H. destruct H as [req_temperature [_ H]].
  do 3 (apply bind_ok in H; destruct H as [? [_ H]]).
  apply bind_ok in H. destruct H as [completion [Hcompletion H]].
  apply bind_ok in H. destruct H as [usage [_ H]].
  injection H as <- _.
  split; [| split; [| split]].
  - apply attribute_kept_by_usage.
    destruct (truthy req_model), (is_none req_temperature); reflexivity.
  - apply attribute_kept_by_usage.
    destruct (truthy req_model), (is_none req_temperature); reflexivity.
  - apply attribute_kept_by_usage.
    destruct (truthy req_model), (is_none req_temperature); reflexivity.
  - exists completion. split; [exact Hcompletion |].
    apply attribute_kept_by_usage.
    destruct (truthy req_model), (is_none req_temperature); reflexivity.
Qed.

Lemma dumb_proxy_records_witness :
  let outcome := dumb_proxy Json.loads "http://real-ollama:11434"
                   (answering (plain foo_bar_stream)) "/api/chat" (post (dq "{'model':'m2'}")) in
  let resp_text := Codec.decode foo_bar_stream in
  attribute "http.target_url" (span_of outcome)
    = Some (VStr ("http://real-ollama:11434" ++ "/" ++ lstrip_char "/"%char "/api/chat")) /\
  attribute "proxy.request.body" (span_of outcome)
    = Some (VStr (Codec.decode (dq "{'model':'m2'}"))) /\
  attribute "proxy.response.body" (span_of outcome) = Some (VStr resp_text) /\
  exists completion,
    proxy_completion_text Json.loads resp_text = Ok completion /\
    attribute "gen_ai.completion" (span_of outcome) = Some completion.
Proof.
  cbv zeta.
  apply (dumb_proxy_records Json.loads "http://real-ollama:11434"
           (answering (plain foo_bar_stream)) "/api/chat" (post (dq "{'model':'m2'}"))
           _ (proxied_response (plain foo_bar_stream))).
  vm_compute. reflexivity.
Defined.

(** Whenever the generic handler returns, the usage attributes of the span
    are the facts [usage_facts] reads from the last JSON value of the
    backend's body: each present fact is recorded as it is and no attribute
    is set for an absent one. *)
Theorem dumb_proxy_records_usage
  (json_loads : string -> option value) (base : string)
  (upstream : Outbound -> BackendResponse) (path : string) (request : Request)
  (sp : span) (r : Response) :
  dumb_proxy json_loads base upstream path request = Ok (sp, r) ->
  let resp_text := Codec.decode (content (upstream (forwarded base path request))) in
  exists p c t,
    _extract_usage_from_data (_extract_last_json_from_blob json_loads resp_text "")
      = Ok (p, c, t) /\
    attribute "gen_ai.usage.input_tokens" sp = recorded p /\
    attribute "gen_ai.usage.output_tokens" sp = recorded c /\
    attribute "gen_ai.usage.total_tokens" sp = recorded t.
Proof.
  unfold dumb_proxy. cbv zeta. intros H.
  apply bind_ok in H. destruct H as [req_model [_ H]].
  apply bind_ok in H. destruct H as [req_temperature [_ H]].
  do 3 (apply bind_ok in H; destruct H as [? [_ H]]).
  apply bind_ok in H. destruct H as [completion [_ H]].
  apply bind_ok in H. destruct H as [[[p c] t] [Husage H]].
  injection H as <- _.
  exists p, c, t. split; [exact Husage |].
  unfold recorded, set_usage.
  destruct (truthy req_model), (is_none req_temperature),
    (is_none p), (is_none c), (is_none t); repeat split; reflexivity.
Qed.

Lemma dumb_proxy_records_usage_witness :
  let outcome := dumb_proxy Json.loads "http://real-ollama:11434"
                   (answering (plain foo_bar_stream)) "/api/chat" (post (dq "{'model':'m2'}")) in
  exists p c t,
    _extract_usage_from_data
      (_extract_last_json_from_blob Json.loads (Codec.decode foo_bar_stream) "")
      = Ok (p, c, t) /\
    attribute "gen_ai.usage.input_tokens" (span_of outcome) = recorded p /\
    attribute "gen_ai.usage.output_tokens" (span_of outcome) = recorded c /\
    attribute "gen_ai.usage.total_tokens" (span_of outcome) = recorded t.
Proof.
  cbv zeta.
  apply (dumb_proxy_records_usage Json.loads "http://real-ollama:11434"
           (answering (plain foo_bar_stream)) "/api/chat" (post (dq "{'model':'m2'}"))
           _ (proxied_response (plain foo_bar_stream))).
  vm_compute. reflexivity.
Defined.

(** ** Stripped lines *)

Lemma match_len_none (table : list string) (s : string) :
  forallb (fun w => negb (is_empty w)) table = true ->
  match_len table s = 0 ->
  forall w, In w table -> prefix w s = false.
Proof.
  induction table as [| w0 table IH]; cbn [forallb match_len]; intros Hne H w Hin.
  - destruct Hin.
  - apply Bool.andb_true_iff in Hne. destruct Hne as [Hw0 Hne].
    destruct (prefix w0 s) eqn:P.
    + destruct w0; [discriminate Hw0 | discriminate H].
    + destruct Hin as [<- | Hin]; [exact P | apply IH; assumption].
Qed.

Lemma match_len_zero (table : list string) (s : string) :
  (forall w, In w table -> prefix w s = false) -> match_len table s = 0.
Proof.
  induction table as [| w0 table IH]; cbn [match_len]; intros H; [reflexivity |].
  rewrite (H w0) by (left; reflexivity).
  apply IH. intros w Hin. apply H. right. exact Hin.
Qed.

Lemma prefix_extends (w p q : string) : prefix w p = true -> prefix w (p ++ q) = true.
Proof.
  intros H. destruct (prefix_split _ _ H) as [b ->].
  rewrite append_assoc. apply prefix_append.
Qed.

Lemma match_len_of_prefix (table : list string) (p q : string) :
  forallb (fun w => negb (is_empty w)) table = true ->
  match_len table (p ++ q) = 0 -> match_len table p = 0.
Proof.
  intros Hne H. apply match_len_zero. intros w Hin.
  destruct (prefix w p) eqn:P; [| reflexivity].
  rewrite <- (match_len_none table _ Hne H w Hin). symmetry.
  apply prefix_extends. exact P.
Qed.

Lemma lstrip_from_settled (table : list string) (s : string) :
  forallb (fun w => negb (is_empty w)) table = true ->
  forall skip, match_len table (lstrip_from table skip s) = 0.
Proof.
  intros Hne. induction s as [| c s IH]; intros skip; cbn [lstrip_from].
  - apply match_len_zero. intros w Hin.
    destruct w; [| reflexivity].
    rewrite forallb_forall in Hne. specialize (Hne _ Hin). discriminate Hne.
  - destruct skip as [| k]; [| apply IH].
    destruct (match_len table (String c s)) eqn:E; [exact E | apply IH].
Qed.

Lemma lstrip_from_fixed (table : list string) (s : string) :
  match_len table s = 0 -> lstrip_from table 0 s = s.
Proof. intros H. destruct s; cbn [lstrip_from]; [reflexivity | rewrite H; reflexivity]. Qed.

Lemma whitespace_nonempty : forallb (fun w => negb (is_empty w)) whitespace = true.
Proof. reflexivity. Qed.

Lemma whitespace_rev_nonempty : forallb (fun w => negb (is_empty w)) whitespace_rev = true.
Proof. reflexivity. Qed.

Lemma strip_idempotent (s : string) : strip (strip s) = strip s.
Proof.
  unfold strip, rstrip, lstrip.
  set (t := lstrip_from whitespace 0 s).
  set (x := lstrip_from whitespace_rev 0 (rev t)).
  assert (Ht : match_len whitespace t = 0)
    by apply (lstrip_from_settled _ _ whitespace_nonempty).
  assert (Hx : match_len whitespace_rev x = 0)
    by apply (lstrip_from_settled _ _ whitespace_rev_nonempty).
  destruct (lstrip_from_suffix whitespace_rev (rev t) 0) as [b Hb]. fold x in Hb.
  assert (Hsplit : t = (rev x ++ rev b)%string).
  { rewrite <- (rev_involutive t), Hb, rev_append. reflexivity. }
  assert (Hp : match_len whitespace (rev x) = 0).
  { apply (match_len_of_prefix _ _ (rev b) whitespace_nonempty). rewrite <- Hsplit. exact Ht. }
  rewrite (lstrip_from_fixed _ _ Hp), rev_involutive, (lstrip_from_fixed _ _ Hx).
  reflexivity.
Qed.

Lemma nonblank_lines_stripped (blob l : string) :
  In l (nonblank_lines blob) -> strip l = l.
Proof.
  unfold nonblank_lines. intros Hin. apply in_map_iff in Hin.
  destruct Hin as (l0 & <- & _). apply strip_idempotent.
Qed.

Lemma parser_on_nonblank_lines
  (json_loads : string -> option value) (blob : string)
  (earlier later : list string) (ln : string) (v : value) :
  nonblank_lines blob = earlier ++ ln :: later ->
  json_loads ln = Some v ->
  truthy v = true ->
  Forall (fun l => truthy (_safe_json_loads json_loads l) = false) later ->
  _extract_last_json_from_blob json_loads blob "" = v.
Proof.
  intros Hlines Hln Hv Hlater.
  assert (Hin : forall l, In l (ln :: later) -> strip l = l).
  { intros l Hl. apply (nonblank_lines_stripped blob). rewrite Hlines.
    apply in_or_app. right. exact Hl. }
  rewrite parser_scans by (intros ->; destruct earlier; discriminate Hlines).
  assert (Hscan : scanned_lines blob = earlier ++ ln :: later)
    by (unfold scanned_lines; rewrite Hlines; destruct earlier; reflexivity).
  rewrite Hscan. apply last_json_scan_latest.
  - rewrite candidate_of_empty_prefix, (Hin ln) by (left; reflexivity). exact Hln.
  - exact Hv.
  - apply Forall_forall. intros l Hl.
    rewrite candidate_of_empty_prefix, (Hin l) by (right; exact Hl).
    rewrite Forall_forall in Hlater. apply Hlater. exact Hl.
Qed.

(** With the empty prefix the parser decodes the very texts the aggregator
    decodes, and the last one that decodes to a truthy value wins: when a
    non-blank line of the blob decodes to a truthy value and no later line
    does, the parser returns that value. *)
Theorem parse_last_json_last_line
  (json_loads : string -> option value) (blob : string)
  (earlier later : list string) (ln : string) (v : value) :
  nonblank_lines blob = earlier ++ ln :: later ->
  json_loads ln = Some v ->
  truthy v = true ->
  Forall (fun l => truthy (_safe_json_loads json_loads l) = false) later ->
  _extract_last_json_from_blob json_loads blob "" = v.
Proof.
  intros Hlines Hln Hv Hlater.
  destruct (is_empty blob) eqn:Hb.
  - destruct blob; [| discriminate Hb]. destruct earlier; discriminate Hlines.
  - exact (parser_on_nonblank_lines json_loads blob earlier later ln v Hlines Hln Hv Hlater).
Qed.

Lemma parse_last_json_last_line_witness :
  _extract_last_json_from_blob Json.loads foo_bar_stream ""
  = VDict [("message", VDict [("role", VStr "assistant"); ("content", VStr "bar")]);
           ("prompt_eval_count", VInt 3); ("eval_count", VInt 2)].
Proof.
  apply (parse_last_json_last_line Json.loads foo_bar_stream
           [dq "{'message':{'role':'assistant','content':'foo'}}"] []
           (dq "{'message':{'role':'assistant','content':'bar'},'prompt_eval_count':3,'eval_count':2}")).
  - vm_compute. reflexivity.
  - vm_compute. reflexivity.
  - reflexivity.
  - constructor.
Defined.

(** A non-streamed chat completion is read through the fallback: when the
    backend's body is one line that decodes to a mapping without [message]
    whose [choices[0]] is a mapping without [delta] and with a mapping
    [message] of string content [c], the aggregator finds nothing and the
    completion text is [c]. *)
Theorem completion_of_single_answer
  (json_loads : string -> option value) (resp_text ln c : string)
  (d c0 m : list (string * value)) (rest : list value) :
  nonblank_lines resp_text = [ln] ->
  json_loads ln = Some (VDict d) ->
  lookup "message" d = None ->
  lookup "choices" d = Some (VList (VDict c0 :: rest)) ->
  lookup "delta" c0 = None ->
  lookup "message" c0 = Some (VDict m) ->
  lookup "content" m = Some (VStr c) ->
  proxy_completion_text json_loads resp_text = Ok (VStr c).
Proof.
  intros Hlines Hln Hmsg Hch Hdelta Hm Hc.
  assert (Hparse : _extract_last_json_from_blob json_loads resp_text "" = VDict d).
  { apply (parser_on_nonblank_lines json_loads resp_text [] [] ln);
      [exact Hlines | exact Hln | apply (lookup_some_truthy _ _ _ Hch) | constructor]. }
  unfold proxy_completion_text, _aggregate_completion_from_stream.
  destruct (is_empty resp_text) eqn:Hempty.
  { destruct resp_text; [discriminate Hlines | discriminate Hempty]. }
  rewrite Hlines. cbn [aggregate_lines]. rewrite candidate_of_empty_prefix.
  unfold _safe_json_loads at 1 2 3. rewrite Hln, (lookup_some_truthy _ _ _ Hch).
  cbn [negb]. rewrite py_get_dict, Hmsg. cbn [bind].
  change (py_get (VDict []) "role" VNone) with (@Ok value VNone). cbn [bind eq_str].
  rewrite py_get_dict, Hch. cbn [bind py_item0].
  rewrite py_get_dict, Hdelta. cbn [bind].
  change (py_get (VDict []) "content" VNone) with (@Ok value VNone).
  cbn [bind truthy py_join str_items String.concat is_empty].
  rewrite Hparse. unfold _extract_first_completion_text, first_choice.
  rewrite (lookup_some_truthy _ _ _ Hch). cbn [negb].
  rewrite py_get_dict, Hch. cbn [bind py_item0].
  rewrite py_get_dict, Hm. cbn [bind]. rewrite py_get_dict, Hc.
  cbn [bind try_except]. unfold py_or.
  destruct c as [| a c']; [| reflexivity].
  cbn [truthy is_empty negb]. rewrite py_get_dict, Hmsg. reflexivity.
Qed.

Lemma completion_of_single_answer_witness :
  proxy_completion_text Json.loads
    (dq "{'choices':[{'index':0,'message':{'role':'assistant','content':'hello'}}]}")
  = Ok (VStr "hello").
Proof.
  apply (completion_of_single_answer Json.loads _
           (dq "{'choices':[{'index':0,'message':{'role':'assistant','content':'hello'}}]}")
           "hello"
           [("choices", VList [VDict [("index", VInt 0);
                                      ("message", VDict [("role", VStr "assistant");
                                                         ("content", VStr "hello")])]])]
           [("index", VInt 0);
            ("message", VDict [("role", VStr "assistant"); ("content", VStr "hello")])]
           [("role", VStr "assistant"); ("content", VStr "hello")] []).
  - vm_compute. reflexivity.
  - vm_compute. reflexivity.
  - reflexivity.
  - reflexivity.
  - reflexivity.
  - reflexivity.
  - reflexivity.
Defined.

(** Whenever the chat-completions adapter returns, the span holds the
    completion text and the usage facts read from the client's answer (no
    attribute for an absent fact) and the serialised answer, and the answer
    is handed back as it is. *)
Theorem chat_completions_records
  (json_dumps : value -> string) (create : value -> value)
  (body : value) (sp : span) (data : value) :
  chat_completions json_dumps create body = Ok (sp, data) ->
  exists completion p c t,
    _extract_first_completion_text data = Ok completion /\
    _extract_usage_from_data data = Ok (p, c, t) /\
    attribute "gen_ai.completion" sp = Some completion /\
    attribute "gen_ai.usage.input_tokens" sp = recorded p /\
    attribute "gen_ai.usage.output_tokens" sp = recorded c /\
    attribute "gen_ai.usage.total_tokens" sp = recorded t /\
    attribute "proxy.response.body" sp = Some (VStr (json_dumps data)).
Proof.
  unfold chat_completions. intros H.
  do 7 (apply bind_ok in H; destruct H as [? [_ H]]).
  apply bind_ok in H. destruct H as [request_temperature [_ H]].
  cbv zeta in H.
  apply bind_ok in H. destruct H as [completion [Hcompletion H]].
  apply bind_ok in H. destruct H as [[[p c] t] [Husage H]].
  injection H as <- <-.
  exists completion, p, c, t.
  split; [exact Hcompletion | split; [exact Husage |]].
  unfold recorded, set_usage.
  destruct (is_none request_temperature), (is_none p), (is_none c), (is_none t);
    repeat split; reflexivity.
Qed.

Lemma chat_completions_records_witness :
  let outcome := chat_completions (fun _ => "") (fun _ => hello_answer) hi_request in
  exists completion p c t,
    _extract_first_completion_text hello_answer = Ok completion /\
    _extract_usage_from_data hello_answer = Ok (p, c, t) /\
    attribute "gen_ai.completion" (span_of outcome) = Some completion /\
    attribute "gen_ai.usage.input_tokens" (span_of outcome) = recorded p /\
    attribute "gen_ai.usage.output_tokens" (span_of outcome) = recorded c /\
    attribute "gen_ai.usage.total_tokens" (span_of outcome) = recorded t /\
    attribute "proxy.response.body" (span_of outcome) = Some (VStr "").
Proof.
  cbv zeta.
  apply (chat_completions_records (fun _ => "") (fun _ => hello_answer) hi_request
           (span_of (chat_completions (fun _ => "") (fun _ => hello_answer) hi_request))
           hello_answer).
  vm_compute. reflexivity.
Defined.
